(** * PyroPy_2: the Vesta II rate-of-spread engine

    A shallow embedding of [pyropy2/spread_model_vesta2.py] and properties
    of its functions.

    The engine is plain NumPy arithmetic.  Three aspects of the Python
    semantics decide what the functions do and are modelled explicitly:

    - numbers: a binary64 value is idealised as an exact real number or
      one of the special values [+inf], [-inf], [nan].  Rounding, overflow
      and the sign of zero are outside this model, and Python integers are
      identified with the floats they denote (NumPy's 64-bit integer
      arithmetic is not modelled).  Where rounding decides a property,
      the arithmetic is evaluated on primitive binary64 numbers as well
      (see the slope effect in binary64);
    - shapes: an argument is a Python number, a NumPy scalar (what the
      [np.*] functions return on scalars) or a one-dimensional [ndarray];
      binary operations follow NumPy's broadcasting rule;
    - exceptions: a call returns a value or raises; the only exceptions
      the engine can meet are [ValueError] (shapes that do not broadcast,
      truth value of an array) and [ZeroDivisionError] (Python [/]). *)

From Stdlib Require Import Reals Lra Lia Psatz List Bool ZArith.
From Stdlib Require String Ascii Floats.
Import ListNotations.

Local Open Scope R_scope.

(** ** Idealised binary64 numbers *)

Module Float.

Inductive float : Type :=
| Fin (r : R)
| PInf
| NInf
| NaN.

Inductive sign : Type := Neg | Zero | Pos.

Definition Rltb (x y : R) : bool := if Rlt_dec x y then true else false.
Definition Rleb (x y : R) : bool := if Rle_dec x y then true else false.
Definition Reqb (x y : R) : bool := if Req_dec_T x y then true else false.

Definition Rsign (r : R) : sign :=
  if Rltb 0 r then Pos else if Rltb r 0 then Neg else Zero.

Definition sign_mul (s t : sign) : sign :=
  match s, t with
  | Zero, _ | _, Zero => Zero
  | Pos, Pos | Neg, Neg => Pos
  | _, _ => Neg
  end.

(** An infinity of the given sign; [inf * 0] and the like are [nan]. *)
Definition inf_of (s : sign) : float :=
  match s with Pos => PInf | Neg => NInf | Zero => NaN end.

(** Sign of a number that is not [nan]. *)
Definition fsign (x : float) : sign :=
  match x with
  | Fin r => Rsign r
  | PInf => Pos
  | NInf => Neg
  | NaN => Zero
  end.

Definition fneg (x : float) : float :=
  match x with
  | Fin r => Fin (- r)
  | PInf => NInf
  | NInf => PInf
  | NaN => NaN
  end.

Definition fadd (x y : float) : float :=
  match x, y with
  | NaN, _ | _, NaN => NaN
  | Fin a, Fin b => Fin (a + b)
  | PInf, NInf | NInf, PInf => NaN
  | PInf, _ | _, PInf => PInf
  | NInf, _ | _, NInf => NInf
  end.

Definition fsub (x y : float) : float := fadd x (fneg y).

Definition fmul (x y : float) : float :=
  match x, y with
  | NaN, _ | _, NaN => NaN
  | Fin a, Fin b => Fin (a * b)
  | _, _ => inf_of (sign_mul (fsign x) (fsign y))
  end.

(** IEEE division; a finite number over zero is an infinity, [0/0] is
    [nan].  (Zero is unsigned here, so the infinity takes the sign of the
    numerator.) *)
Definition fdiv (x y : float) : float :=
  match x, y with
  | NaN, _ | _, NaN => NaN
  | Fin a, Fin b => if Reqb b 0 then inf_of (Rsign a) else Fin (a / b)
  | Fin _, _ => Fin 0
  | _, Fin b => inf_of (sign_mul (fsign x) (if Reqb b 0 then Pos else Rsign b))
  | _, _ => NaN
  end.

Definition fexp (x : float) : float :=
  match x with
  | Fin r => Fin (exp r)
  | PInf => PInf
  | NInf => Fin 0
  | NaN => NaN
  end.

(** [b] is an integer. *)
Definition Rintb (b : R) : bool := Reqb b (IZR (Int_part b)).

(** C's [pow], which is what [np.power] computes on floats.  A negative
    base with an exponent that is not an integer gives [nan]. *)
Definition fpow (x y : float) : float :=
  match x, y with
  | _, Fin b =>
      if Reqb b 0 then Fin 1 else
      match x with
      | Fin a =>
          if Rintb b then
            if Reqb a 0 && (Int_part b <? 0)%Z then PInf
            else Fin (powerRZ a (Int_part b))
          else if Rltb 0 a then Fin (Rpower a b)
          else if Reqb a 0 then (if Rltb 0 b then Fin 0 else PInf)
          else NaN
      | PInf => if Rltb 0 b then PInf else Fin 0
      | NInf =>
          if Rltb 0 b
          then (if Rintb b && Z.odd (Int_part b) then NInf else PInf)
          else Fin 0
      | NaN => NaN
      end
  | Fin a, PInf =>
      if Reqb a 1 || Reqb a (-1) then Fin 1
      else if Rltb 1 (Rabs a) then PInf else Fin 0
  | Fin a, NInf =>
      if Reqb a 1 || Reqb a (-1) then Fin 1
      else if Rltb 1 (Rabs a) then Fin 0 else PInf
  | Fin a, NaN => if Reqb a 1 then Fin 1 else NaN
  | (PInf | NInf), PInf => PInf
  | (PInf | NInf), NInf => Fin 0
  | _, _ => NaN
  end.

(** Comparisons; every comparison with [nan] is false. *)
Definition flt (x y : float) : bool :=
  match x, y with
  | NaN, _ | _, NaN => false
  | Fin a, Fin b => Rltb a b
  | _, NInf | PInf, _ => false
  | _, _ => true
  end.

Definition fle (x y : float) : bool :=
  match x, y with
  | NaN, _ | _, NaN => false
  | Fin a, Fin b => Rleb a b
  | NInf, _ | _, PInf => true
  | _, _ => false
  end.

Definition feq (x y : float) : bool :=
  match x, y with
  | Fin a, Fin b => Reqb a b
  | PInf, PInf | NInf, NInf => true
  | _, _ => false
  end.

Definition fgt (x y : float) : bool := flt y x.

(** [np.maximum] and [np.minimum]: they propagate [nan]. *)
Definition fmaximum (x y : float) : float :=
  match x, y with
  | NaN, _ | _, NaN => NaN
  | _, _ => if flt x y then y else x
  end.

Definition fminimum (x y : float) : float :=
  match x, y with
  | NaN, _ | _, NaN => NaN
  | _, _ => if flt y x then y else x
  end.

End Float.
Export Float.

(** ** Values, exceptions and broadcasting *)

(** What a Python expression of the engine can denote: a Python number
    ([int], [float] or [bool]), a NumPy scalar (or zero-dimensional array),
    or a one-dimensional [ndarray]. *)
Inductive value (A : Type) : Type :=
| Py (x : A)
| Np0 (x : A)
| Np1 (xs : list A).
Arguments Py {A} x.
Arguments Np0 {A} x.
Arguments Np1 {A} xs.

Inductive exn : Type := ValueError | ZeroDivisionError.

Inductive result (A : Type) : Type :=
| Ok (a : A)
| Raise (e : exn).
Arguments Ok {A} a.
Arguments Raise {A} e.

Definition bind {A B} (m : result A) (k : A -> result B) : result B :=
  match m with
  | Ok a => k a
  | Raise e => Raise e
  end.

Fixpoint zip_with {A B C} (f : A -> B -> C) (xs : list A) (ys : list B) : list C :=
  match xs, ys with
  | x :: xs', y :: ys' => f x y :: zip_with f xs' ys'
  | _, _ => []
  end.

(** A NumPy binary ufunc: scalars are stretched over arrays, arrays of
    equal length are combined position by position, an array of length one
    is stretched like a scalar, and any other pair of lengths raises
    [ValueError] (operands could not be broadcast together). *)
Definition broadcast {A B C} (f : A -> B -> C) (a : value A) (b : value B)
  : result (value C) :=
  match a, b with
  | (Py x | Np0 x), (Py y | Np0 y) => Ok (Np0 (f x y))
  | (Py x | Np0 x), Np1 ys => Ok (Np1 (map (f x) ys))
  | Np1 xs, (Py y | Np0 y) => Ok (Np1 (map (fun x => f x y) xs))
  | Np1 xs, Np1 ys =>
      if (length xs =? length ys)%nat then Ok (Np1 (zip_with f xs ys))
      else match xs, ys with
           | [x], _ => Ok (Np1 (map (f x) ys))
           | _, [y] => Ok (Np1 (map (fun x => f x y) xs))
           | _, _ => Raise ValueError
           end
  end.

(** A NumPy unary ufunc. *)
Definition ufunc {A B} (f : A -> B) (a : value A) : value B :=
  match a with
  | Py x | Np0 x => Np0 (f x)
  | Np1 xs => Np1 (map f xs)
  end.

(** A Python binary operator: between two Python numbers it is Python's
    own operation [py]; as soon as one operand is a NumPy value it is the
    ufunc [np]. *)
Definition operator {A C} (py : A -> A -> result C) (np : A -> A -> C)
  (a b : value A) : result (value C) :=
  match a, b with
  | Py x, Py y => bind (py x y) (fun r => Ok (Py r))
  | _, _ => broadcast np a b
  end.

(** Python's [/] on two Python numbers raises on a zero divisor; NumPy's
    only warns and returns [inf] or [nan]. *)
Definition py_truediv (x y : float) : result float :=
  match y with
  | Fin b => if Reqb b 0 then Raise ZeroDivisionError else Ok (fdiv x y)
  | _ => Ok (fdiv x y)
  end.

(** [bool(v)]: the truth value of an array with more than one element is
    ambiguous; an array of exactly one element has the truth value of that
    element (an empty array is rejected as well, as NumPy 2.2 does). *)
Definition truth (v : value bool) : result bool :=
  match v with
  | Py b | Np0 b => Ok b
  | Np1 [b] => Ok b
  | Np1 _ => Raise ValueError
  end.

(** ** Expressions *)

Definition num : Type := value float.
Definition expr : Type := result num.
Definition bexpr : Type := result (value bool).

Definition ret (v : num) : expr := Ok v.
Definition lit (r : R) : expr := Ok (Py (Fin r)).
Coercion ret : num >-> expr.
Coercion lit : R >-> expr.

(** Operands are evaluated left to right, then the operation is applied;
    the first exception raised ends the evaluation. *)
Definition lift2 {A B C} (op : A -> B -> result C)
  (ea : result A) (eb : result B) : result C :=
  bind ea (fun a => bind eb (fun b => op a b)).

Definition py_add (a b : expr) : expr :=
  lift2 (operator (fun x y => Ok (fadd x y)) fadd) a b.
Definition py_sub (a b : expr) : expr :=
  lift2 (operator (fun x y => Ok (fsub x y)) fsub) a b.
Definition py_mul (a b : expr) : expr :=
  lift2 (operator (fun x y => Ok (fmul x y)) fmul) a b.
Definition py_div (a b : expr) : expr :=
  lift2 (operator py_truediv fdiv) a b.
Definition py_neg (a : expr) : expr :=
  bind a (fun v => Ok match v with
                      | Py x => Py (fneg x)
                      | _ => ufunc fneg v
                      end).

Definition py_lt (a b : expr) : bexpr :=
  lift2 (operator (fun x y => Ok (flt x y)) flt) a b.
Definition py_le (a b : expr) : bexpr :=
  lift2 (operator (fun x y => Ok (fle x y)) fle) a b.
Definition py_gt (a b : expr) : bexpr :=
  lift2 (operator (fun x y => Ok (fgt x y)) fgt) a b.
Definition py_eq (a b : expr) : bexpr :=
  lift2 (operator (fun x y => Ok (feq x y)) feq) a b.

(** The builtin [max(a, b)]: [b] replaces [a] when [bool(b > a)]. *)
Definition py_max (a b : expr) : expr :=
  bind a (fun va => bind b (fun vb =>
  bind (py_gt (ret vb) (ret va)) (fun c =>
  bind (truth c) (fun t => Ok (if t then vb else va))))).

Definition np_power (a b : expr) : expr := lift2 (broadcast fpow) a b.
Definition np_exp (a : expr) : expr := bind a (fun v => Ok (ufunc fexp v)).

(** [np.where(c, x, y)]: the three arguments are evaluated, broadcast
    together, and each position takes [x] or [y] by [c]. *)
Definition np_where (c : bexpr) (x y : expr) : expr :=
  bind c (fun vc => bind x (fun vx => bind y (fun vy =>
  bind (broadcast pair vc vx) (fun cx =>
  broadcast (fun (p : bool * float) (e : float) => if fst p then snd p else e)
    cx vy)))).

(** [np.clip(x, lo, hi)] is [np.minimum(np.maximum(x, lo), hi)]. *)
Definition np_clip (x lo hi : expr) : expr :=
  bind x (fun vx => bind lo (fun vlo => bind hi (fun vhi =>
  bind (broadcast fmaximum vx vlo) (fun m => broadcast fminimum m vhi)))).

(** An assignment [x = e] followed by the rest of the body. *)
Definition assign (e : expr) (k : num -> expr) : expr := bind e k.

Declare Scope py_scope.
Delimit Scope py_scope with py.
Bind Scope py_scope with expr.
Bind Scope py_scope with bexpr.

Notation "x <- e ;; k" := (assign e (fun x => k))
  (at level 100, e at next level, right associativity) : py_scope.
Infix "+" := py_add : py_scope.
Infix "-" := py_sub : py_scope.
Infix "*" := py_mul : py_scope.
Infix "/" := py_div : py_scope.
Notation "- a" := (py_neg a) : py_scope.
Infix "<" := py_lt : py_scope.
Infix "<=" := py_le : py_scope.
Infix ">" := py_gt : py_scope.
Infix "==" := py_eq (at level 70, no associativity) : py_scope.

(** ** The engine: [spread_model_vesta2.py] *)

Local Open Scope py_scope.

Definition calc_moisture_function (fuel_moisture : num) : expr :=
  np_where
    (fuel_moisture <= 4.1)
    1
    (np_where
       (fuel_moisture > 24)
       0
       (0.9082 +
        0.1206 * fuel_moisture -
        0.03106 * np_power fuel_moisture 2 +
        0.001853 * np_power fuel_moisture 3 -
        0.00003467 * np_power fuel_moisture 4)).

(** The defaults of the source are [DI = 100], [wrf = 3] and
    [wet_forest = False]; the callers of the model pass them explicitly. *)
Definition calc_fuel_availability (DF DI wrf : num) (wet_forest : bool) : expr :=
  drought_factor <-
    (if wet_forest then
       C1 <- ((0.0046 * np_power wrf 2 - 0.0079 * wrf - 0.0175) * DI +
              (-0.9167 * np_power wrf 2 + 1.5833 * wrf + 13.5)) ;;
       C2 <- 0 ;;
       drought_factor <- DF * py_max (C1 + C2) 0 / 10 ;;
       np_clip drought_factor 0 10
     else
       DF) ;;
  1.008 / (1 + 104.9 * np_exp (-0.9306 * drought_factor)).

Definition calc_slope_effect (slope : num) : expr :=
  np_where
    (slope == 0)
    1
    (np_where
       (slope > 0)
       (np_power 2 (slope / 10))
       (np_power 2 (- slope / 10) / (2 * np_power 2 (- slope / 10) - 1))).

Definition calc_height_understorey (FHS_elevated height_elevated : num) : expr :=
  -0.1 + 0.06 * FHS_elevated + 0.48 * height_elevated.

Definition calc_ros_phase1
  (wind_speed fuel_moisture fuel_availability fuel_load_surface wrf slope : num)
  : expr :=
  fuel_moisture_effect <- calc_moisture_function fuel_moisture * fuel_availability ;;
  slope_effect <- calc_slope_effect slope ;;
  u <- wind_speed / wrf ;;
  ros <- np_where
           (u > 2)
           (0.03 + 0.05024 * np_power (u - 1) 0.92628 *
                   np_power (fuel_load_surface / 10) 0.79928)
           0.03 ;;
  ros * fuel_moisture_effect * slope_effect * 1000.

Definition calculate_ros_phase2
  (wind_speed fuel_moisture fuel_availability fuel_load_surface wrf
     height_understorey slope : num) : expr :=
  fuel_moisture_effect <- calc_moisture_function fuel_moisture * fuel_availability ;;
  slope_effect <- calc_slope_effect slope ;;
  u <- wind_speed / wrf ;;
  ros <- 0.19591 * np_power u 0.8257 * np_power (fuel_load_surface / 10) 0.4672 *
         np_power height_understorey 0.495 ;;
  ros * fuel_moisture_effect * slope_effect * 1000.

Definition calc_ros_phase3 (wind_speed fuel_moisture fuel_availability : num) : expr :=
  fuel_moisture_effect <- calc_moisture_function fuel_moisture * fuel_availability ;;
  ros <- 0.05235 * np_power wind_speed 1.19128 ;;
  ros * fuel_moisture_effect * 1000.

Definition calc_probability_phase2
  (wind_speed fuel_moisture fuel_availability fuel_load_surface wrf : num) : expr :=
  fuel_moisture_effect <- calc_moisture_function fuel_moisture * fuel_availability ;;
  g_x <- -23.9315 + 1.7033 * (wind_speed / wrf) + 12.0822 * fuel_moisture_effect +
         0.95236 * fuel_load_surface ;;
  np_where
    (fuel_load_surface < 1)
    0
    (1 / (1 + np_exp (- g_x))).

Definition calc_probability_phase3
  (wind_speed fuel_moisture fuel_availability ros_phase2 : num) : expr :=
  fuel_moisture_effect <- calc_moisture_function fuel_moisture * fuel_availability ;;
  g_x <- -32.3074 + 0.2951 * wind_speed + 26.8734 * fuel_moisture_effect ;;
  np_where
    (ros_phase2 < 300)
    0
    (1 / (1 + np_exp (- g_x))).

Definition calc_rate_of_spread
  (ros_phase1 ros_phase2 ros_phase3 probability_phase2 probability_phase3 : num)
  : expr :=
  np_where
    (probability_phase2 < 0.5)
    (ros_phase1 * (1 - probability_phase2) + ros_phase2 * probability_phase2)
    (ros_phase1 * (1 - probability_phase2) +
     ros_phase2 * probability_phase2 * (1 - probability_phase3) +
     ros_phase3 * probability_phase3).

Local Close Scope py_scope.

(** ** Real-valued readings of the formulas *)

(** The quartic of the third branch of [calc_moisture_function]. *)
Definition moisture_polynomial (m : R) : R :=
  0.9082 + 0.1206 * m - 0.03106 * m ^ 2 + 0.001853 * m ^ 3 - 0.00003467 * m ^ 4.

(** The wet-forest branch of [calc_fuel_availability]: the coefficient
    [C1] and the drought factor used ([C2] is the constant 0). *)
Definition wet_C1 (DI wrf : R) : R :=
  (0.0046 * wrf ^ 2 - 0.0079 * wrf - 0.0175) * DI +
  (-0.9167 * wrf ^ 2 + 1.5833 * wrf + 13.5).

Definition wet_drought_factor (DF DI wrf : R) : R :=
  Rmin (Rmax (DF * Rmax (wet_C1 DI wrf + 0) 0 / 10) 0) 10.

(** What [calc_moisture_function] selects on a real moisture. *)
Definition moisture_effect (m : R) : R :=
  if Rleb m 4.1 then 1 else if Rltb 24 m then 0 else moisture_polynomial m.

(** The logistic function and the linear predictor [g_x] of
    [calc_probability_phase2]. *)
Definition logistic (g : R) : R := 1 / (1 + exp (- g)).

Definition phase2_logit (wind_speed fuel_moisture fuel_availability
                           fuel_load_surface wrf : R) : R :=
  -23.9315 + 1.7033 * (wind_speed / wrf) +
  12.0822 * (moisture_effect fuel_moisture * fuel_availability) +
  0.95236 * fuel_load_surface.

(** The two branches of [calc_rate_of_spread]. *)
Definition blend_two_term (ros1 ros2 p2 : R) : R :=
  ros1 * (1 - p2) + ros2 * p2.

Definition blend_three_term (ros1 ros2 ros3 p2 p3 : R) : R :=
  ros1 * (1 - p2) + ros2 * p2 * (1 - p3) + ros3 * p3.

(** The downslope branch of [calc_slope_effect]. *)
Definition downslope_effect (slope : R) : R :=
  Rpower 2 (- slope / 10) / (2 * Rpower 2 (- slope / 10) - 1).

(** The last line of [calc_fuel_availability] on the drought factor used. *)
Definition availability (drought_factor : R) : R :=
  1.008 / (1 + 104.9 * exp (-0.9306 * drought_factor)).

(** ** Shapes *)

(** The length a value has under broadcasting: a scalar counts as one
    position. *)
Definition dim {A} (v : value A) : nat :=
  match v with
  | Py _ | Np0 _ => 1
  | Np1 xs => length xs
  end.

(** Two arguments that NumPy cannot broadcast together: their lengths
    differ and neither is 1. *)
Definition incompatible {A B} (a : value A) (b : value B) : Prop :=
  dim a <> 1%nat /\ dim b <> 1%nat /\ dim a <> dim b.

(** A length fits a result when it is 1 or the length of the result. *)
Definition fits (d n : nat) : Prop := n = 1%nat \/ n = d.

(** [shaped e ns]: if [e] returns, every length of [ns] (the lengths of
    the arguments [e] was computed from) fits the result; if it raises, it
    raises [ValueError]. *)
Definition shaped {A} (e : result (value A)) (ns : list nat) : Prop :=
  match e with
  | Ok v => Forall (fits (dim v)) ns
  | Raise x => x = ValueError
  end.

(** Two of the values are arrays that NumPy cannot broadcast together. *)
Definition mismatched (vs : list num) : Prop :=
  exists a b : num, In a vs /\ In b vs /\ incompatible a b.

(** Python's own division by zero: [x / y] on two Python numbers with [y]
    zero. *)
Definition python_zero_division (x y : num) : Prop :=
  (exists a : float, x = Py a) /\ y = Py (Fin 0).

(** [shaped_unless P e ns]: as [shaped e ns], except that [e] may also
    raise [ZeroDivisionError] when [P] holds. *)
Definition shaped_unless (P : Prop) {A} (e : result (value A)) (ns : list nat)
  : Prop :=
  match e with
  | Ok v => Forall (fits (dim v)) ns
  | Raise ValueError => True
  | Raise ZeroDivisionError => P
  end.

(** An expression that never denotes a Python number. *)
Definition numpy_valued {A} (e : result (value A)) : Prop :=
  match e with
  | Ok (Py _) => False
  | _ => True
  end.

(** A call that returns. *)
Definition returns {A} (e : result A) : Prop := exists v : A, e = Ok v.

(** [returns_within n e]: [e] returns a value whose length fits [n]. *)
Definition returns_within {A} (n : nat) (e : result (value A)) : Prop :=
  exists v : value A, e = Ok v /\ fits n (dim v).

(** ** The slope effect in binary64

    The arithmetic of [calc_slope_effect] on primitive binary64 numbers,
    rounded to nearest even as NumPy's is, at the slopes where
    [np.power(2, e)] is known to the last bit: when the exponent [e] is a
    whole number between -1022 and 1023 the power of two is itself a
    double, and [pow] returns it.  At any other exponent the result is
    left open ([None]). *)
Section Binary64.
Import Floats.
Local Open Scope float_scope.

(** The whole number a double denotes, if it denotes one. *)
Definition binary64_integer (x : float) : option Z :=
  match Prim2SF x with
  | S754_zero _ => Some 0%Z
  | S754_finite s m e =>
      let n := Z.shiftl (Z.pos m) e in
      if (Z.shiftl n (- e) =? Z.pos m)%Z
      then Some (if s then (- n)%Z else n)
      else None
  | _ => None
  end.

(** [np.power(2, e)] at a whole exponent. *)
Definition np_power_2_binary64 (e : float) : option float :=
  match binary64_integer e with
  | Some n =>
      if ((-1022 <=? n) && (n <=? 1023))%Z then Some (Z.ldexp 1 n) else None
  | None => None
  end.

Definition calc_slope_effect_binary64 (slope : float) : option float :=
  if slope =? 0 then Some 1
  else if 0 <? slope then np_power_2_binary64 (slope / 10)
  else
    match np_power_2_binary64 (- slope / 10) with
    | Some x => Some (x / (2 * x - 1))
    | None => None
    end.

(** The slope of [n] tens of degrees downhill. *)
Definition tens_downhill (n : nat) : float :=
  - of_uint63 (Uint63.of_Z (10 * Z.of_nat n)).

(** The binary64 slope effect at that slope is at least 0.5 and at most
    1. *)
Definition in_downslope_range (n : nat) : bool :=
  match calc_slope_effect_binary64 (tens_downhill n) with
  | Some y => (0.5 <=? y) && (y <=? 1)
  | None => false
  end.

End Binary64.

(** ** Further real-valued readings *)

(** What [calc_slope_effect] selects on a real slope. *)
Definition slope_effect (slope : R) : R :=
  if Reqb slope 0 then 1
  else if Rltb 0 slope then Rpower 2 (slope / 10)
  else downslope_effect slope.

(** [np.power] on a base that is not negative and an exponent that is
    positive and not an integer: the power of 0 is 0. *)
Definition power (b e : R) : R := if Reqb b 0 then 0 else Rpower b e.

(** The [ros] of [calc_ros_phase1], of [calculate_ros_phase2] and of
    [calc_ros_phase3] before the moisture, slope and unit factors. *)
Definition phase1_base (u fuel_load_surface : R) : R :=
  if Rltb 2 u
  then 0.03 + 0.05024 * Rpower (u - 1) 0.92628 *
              power (fuel_load_surface / 10) 0.79928
  else 0.03.

Definition phase2_base (u fuel_load_surface height_understorey : R) : R :=
  0.19591 * power u 0.8257 * power (fuel_load_surface / 10) 0.4672 *
  power height_understorey 0.495.

Definition phase3_base (wind_speed : R) : R := 0.05235 * power wind_speed 1.19128.

(** The linear predictor [g_x] of [calc_probability_phase3]. *)
Definition phase3_logit (wind_speed fuel_moisture fuel_availability : R) : R :=
  -32.3074 + 0.2951 * wind_speed +
  26.8734 * (moisture_effect fuel_moisture * fuel_availability).

(** [f] does not increase on the interval from [a] to [b]. *)
Definition decreasing_on (f : R -> R) (a b : R) : Prop :=
  forall x y : R, a <= x -> x <= y -> y <= b -> f y <= f x.

(** ** The driver: the [__main__] block of [spread_model_vesta2.py] *)

Local Open Scope py_scope.

(** The rate of spread the block computes from the weather columns
    (wind speed, fuel moisture, drought factor) with its fuel constants.
    The columns of the data frame are modelled as one-dimensional arrays;
    the reading of the file and the external fuel moisture model are not
    part of it, so the fuel moisture column is an argument. *)
Definition main_ROS (wind_speed fuel_moisture DF : num) : expr :=
  let wet_forest := false in
  wrf <- 3 ;;
  fuel_load_surface <- 15 ;;
  slope <- 0 ;;
  FHS_elevated <- 3 ;;
  height_elevated <- 2 ;;
  height_understorey <- calc_height_understorey FHS_elevated height_elevated ;;
  fuel_availability <-
    calc_fuel_availability DF (Py (Fin 100)) (Py (Fin 3)) wet_forest ;;
  ros_phase1 <-
    calc_ros_phase1 wind_speed fuel_moisture fuel_availability
      fuel_load_surface wrf slope ;;
  ros_phase2 <-
    calculate_ros_phase2 wind_speed fuel_moisture fuel_availability
      fuel_load_surface wrf height_understorey slope ;;
  ros_phase3 <- calc_ros_phase3 wind_speed fuel_moisture fuel_availability ;;
  probability_phase2 <-
    calc_probability_phase2 wind_speed fuel_moisture fuel_availability
      fuel_load_surface wrf ;;
  probability_phase3 <-
    calc_probability_phase3 wind_speed fuel_moisture fuel_availability ros_phase2 ;;
  calc_rate_of_spread ros_phase1 ros_phase2 ros_phase3
    probability_phase2 probability_phase3.

Local Close Scope py_scope.

(** What the block computes for one weather record. *)
Definition main_row (wind_speed fuel_moisture DF : R) : R :=
  let fuel_availability := availability DF in
  let combined := moisture_effect fuel_moisture * fuel_availability in
  let height_understorey := -0.1 + 0.06 * 3 + 0.48 * 2 in
  let ros1 := phase1_base (wind_speed / 3) 15 * combined * slope_effect 0 * 1000 in
  let ros2 := phase2_base (wind_speed / 3) 15 height_understorey * combined *
              slope_effect 0 * 1000 in
  let ros3 := phase3_base wind_speed * combined * 1000 in
  let p2 := if Rltb 15 1 then 0
            else logistic (phase2_logit wind_speed fuel_moisture
                             fuel_availability 15 3) in
  let p3 := if Rltb ros2 300 then 0
            else logistic (phase3_logit wind_speed fuel_moisture
                             fuel_availability) in
  if Rltb p2 0.5 then blend_two_term ros1 ros2 p2
  else blend_three_term ros1 ros2 ros3 p2 p3.

(** ** [spread_model_mallee_ns_U2.py] *)

Local Open Scope py_scope.

Definition calc_spread_probability
  (wind_speed wind_adjustment_factor fuel_moisture fuel_load_near_surface : num)
  : expr :=
  spread_probability <-
    1 / (1 + np_exp (- (9.0787 +
                        0.7150 * wind_speed * wind_adjustment_factor -
                        2.2325 * fuel_moisture +
                        14.8674 * fuel_load_near_surface))) ;;
  spread_probability.

Local Close Scope py_scope.

(** The linear predictor of [calc_spread_probability]. *)
Definition spread_logit
  (wind_speed wind_adjustment_factor fuel_moisture fuel_load_near_surface : R) : R :=
  9.0787 + 0.7150 * wind_speed * wind_adjustment_factor -
  2.2325 * fuel_moisture + 14.8674 * fuel_load_near_surface.

(** ** [helpers.py]: finding the header row *)

(** Text is modelled as ASCII strings: [str.lower] maps [A]-[Z] to
    [a]-[z] and leaves every other character. *)
Definition lower_char (c : Ascii.ascii) : Ascii.ascii :=
  let n := Ascii.nat_of_ascii c in
  if ((65 <=? n) && (n <=? 90))%nat then Ascii.ascii_of_nat (n + 32) else c.

Fixpoint lower (s : String.string) : String.string :=
  match s with
  | String.EmptyString => String.EmptyString
  | String.String c s' => String.String (lower_char c) (lower s')
  end.

(** [t in s] on strings: [t] occurs in [s] as a substring. *)
Fixpoint contains (t s : String.string) : bool :=
  if String.prefix t s then true
  else match s with
       | String.EmptyString => false
       | String.String _ s' => contains t s'
       end.

(** The loop over [enumerate(file)], from line number [line_num] on. *)
Fixpoint find_header_row_from (line_num : nat) (file : list String.string)
  (target_string : String.string) : option nat :=
  match file with
  | [] => None
  | line :: rest =>
      if contains (lower target_string) (lower line) then Some line_num
      else find_header_row_from (S line_num) rest target_string
  end.

(** [find_header_row]: the file is given by its lines. *)
Definition find_header_row (file : list String.string)
  (target_string : String.string) : option nat :=
  find_header_row_from 0 file target_string.

(** * Properties *)

(** ** Deciding comparisons of reals *)

Lemma Rltb_true (x y : R) : x < y -> Rltb x y = true.
Proof. intros H; unfold Rltb; destruct (Rlt_dec x y); [reflexivity | contradiction]. Qed.

Lemma Rltb_false (x y : R) : y <= x -> Rltb x y = false.
Proof. intros H; unfold Rltb; destruct (Rlt_dec x y); [lra | reflexivity]. Qed.

Lemma Rleb_true (x y : R) : x <= y -> Rleb x y = true.
Proof. intros H; unfold Rleb; destruct (Rle_dec x y); [reflexivity | contradiction]. Qed.

Lemma Rleb_false (x y : R) : y < x -> Rleb x y = false.
Proof. intros H; unfold Rleb; destruct (Rle_dec x y); [lra | reflexivity]. Qed.

Lemma Reqb_true (x y : R) : x = y -> Reqb x y = true.
Proof. intros H; unfold Reqb; destruct (Req_dec_T x y); [reflexivity | contradiction]. Qed.

Lemma Reqb_false (x y : R) : x <> y -> Reqb x y = false.
Proof. intros H; unfold Reqb; destruct (Req_dec_T x y); [contradiction | reflexivity]. Qed.

Lemma Int_part_IZR (z : Z) : Int_part (IZR z) = z.
Proof. symmetry; apply Int_part_spec; lra. Qed.

Lemma Rintb_IZR (z : Z) : Rintb (IZR z) = true.
Proof. unfold Rintb; rewrite Int_part_IZR; apply Reqb_true; reflexivity. Qed.

Lemma Rintb_between (b : R) (z : Z) : IZR z < b < IZR z + 1 -> Rintb b = false.
Proof.
  intros H; unfold Rintb.
  rewrite <- (Int_part_spec b z) by lra.
  apply Reqb_false; lra.
Qed.

(** Settle the tests on reals that occur in the goal, when linear
    arithmetic can. *)
Ltac decide_tests :=
  repeat match goal with
    | |- context [Reqb ?a ?b] =>
        first [rewrite (Reqb_true a b) by lra | rewrite (Reqb_false a b) by lra]
    | |- context [Rltb ?a ?b] =>
        first [rewrite (Rltb_true a b) by lra | rewrite (Rltb_false a b) by lra]
    | |- context [Rleb ?a ?b] =>
        first [rewrite (Rleb_true a b) by lra | rewrite (Rleb_false a b) by lra]
    end.

(** Evaluate the Python expression of the goal as far as its tests can
    be settled; [np.power] is left to the lemmas on powers. *)
Ltac py_eval := repeat (progress (cbn -[fpow]; unfold fgt; decide_tests)).

(** ** Powers *)

Lemma fpow_pos_base (a b : R) : 0 < a -> fpow (Fin a) (Fin b) = Fin (Rpower a b).
Proof.
  intros Ha; unfold fpow.
  destruct (Req_dec_T b 0) as [-> | Hb].
  - rewrite Reqb_true by reflexivity. rewrite Rpower_O by assumption. reflexivity.
  - rewrite (Reqb_false b 0) by assumption.
    rewrite (Reqb_false a 0) by lra; cbn [andb].
    rewrite (Rltb_true 0 a) by assumption.
    destruct (Rintb b) eqn:Hint; [| reflexivity].
    unfold Rintb, Reqb in Hint.
    destruct (Req_dec_T b (IZR (Int_part b))) as [E | E]; [| discriminate].
    rewrite powerRZ_Rpower by assumption. rewrite <- E. reflexivity.
Qed.

Lemma fpow_positive (a : R) (p : positive) :
  fpow (Fin a) (Fin (IZR (Zpos p))) = Fin (a ^ Pos.to_nat p).
Proof.
  unfold fpow.
  rewrite Reqb_false by (apply not_0_IZR; discriminate).
  rewrite Rintb_IZR, Int_part_IZR.
  replace (Z.pos p <? 0)%Z with false by reflexivity.
  rewrite andb_false_r. reflexivity.
Qed.

Lemma fpow_neg_base (a b : R) (z : Z) :
  a < 0 -> IZR z < b < IZR z + 1 -> fpow (Fin a) (Fin b) = NaN.
Proof.
  intros Ha Hb; unfold fpow.
  assert (b <> 0).
  { intros ->. destruct Hb as [H1 H2].
    apply lt_IZR in H1. change 1 with (IZR 1) in H2. rewrite <- plus_IZR in H2.
    apply lt_IZR in H2. lia. }
  rewrite (Reqb_false b 0) by assumption.
  rewrite (Rintb_between b z) by assumption.
  rewrite (Rltb_false 0 a) by lra.
  rewrite (Reqb_false a 0) by lra. reflexivity.
Qed.

(** ** The moisture function *)

(** On a real argument the three branches of the source select a real. *)
Lemma calc_moisture_function_real (m : R) :
  calc_moisture_function (Py (Fin m)) = Ok (Np0 (Fin (moisture_effect m))).
Proof.
  unfold moisture_effect.
  unfold calc_moisture_function.
  cbn -[fpow].
  change 2 with (IZR (Zpos 2)); change 3 with (IZR (Zpos 3));
    change 4 with (IZR (Zpos 4)).
  rewrite !fpow_positive. cbn.
  destruct (Rleb m 4.1); [reflexivity |].
  destruct (Rltb 24 m); [reflexivity |].
  match goal with
  | |- Ok (Np0 (Fin ?a)) = Ok (Np0 (Fin ?b)) =>
      replace a with b by (unfold moisture_polynomial; simpl; ring)
  end.
  reflexivity.
Qed.

(** One unit-wide piece of the interval: shift the polynomial to the left
    end of the piece and bound each power of the offset. *)
Ltac moisture_piece m a :=
  unfold moisture_polynomial;
  let t := fresh "t" in
  set (t := m - a); replace m with (a + t) by (unfold t; ring);
  assert (0 <= t) by (unfold t; lra);
  assert (t <= 1) by (unfold t; lra);
  assert (0 <= t * t) by nra;
  assert (t * t <= t) by nra;
  assert (0 <= t * t * t) by nra;
  assert (t * t * t <= t * t) by nra;
  assert (0 <= t * t * t * t) by nra;
  assert (t * t * t * t <= t * t * t) by nra;
  clearbody t; split; nra.

Ltac moisture_pieces m lo cuts :=
  lazymatch cuts with
  | nil => moisture_piece m lo
  | cons ?a ?rest =>
      destruct (Rle_dec m a); [moisture_piece m lo | moisture_pieces m a rest]
  end.

Lemma moisture_polynomial_bounds (m : R) :
  4.1 <= m <= 24 -> 0 <= moisture_polynomial m <= 1.
Proof.
  intros [Hlo Hhi].
  moisture_pieces m 4.1
    [5; 6; 7; 8; 9; 10; 11; 12; 13; 14; 15; 16; 17; 18; 19; 20; 21; 22; 23].
Qed.

(** C5: on every real moisture the function returns a real in [[0, 1]]:
    1 up to 4.1, 0 above 24, and in between the quartic, which stays
    within [[0, 1]] there. *)
Theorem calc_moisture_function_unit_interval (m : R) :
  exists y : R,
    calc_moisture_function (Py (Fin m)) = Ok (Np0 (Fin y)) /\
    0 <= y <= 1 /\
    (m <= 4.1 -> y = 1) /\
    (24 < m -> y = 0) /\
    (4.1 < m <= 24 -> y = moisture_polynomial m /\ 0 <= moisture_polynomial m <= 1).
Proof.
  rewrite calc_moisture_function_real.
  eexists; split; [reflexivity |].
  unfold moisture_effect.
  destruct (Rle_dec m 4.1) as [H1 | H1].
  - rewrite Rleb_true by assumption. repeat split; intros; lra.
  - rewrite Rleb_false by lra.
    destruct (Rlt_dec 24 m) as [H2 | H2].
    + rewrite Rltb_true by assumption. repeat split; intros; lra.
    + rewrite Rltb_false by lra.
      assert (Hb : 0 <= moisture_polynomial m <= 1)
        by (apply moisture_polynomial_bounds; lra).
      repeat split; intros; lra.
Qed.

(** The values of the quartic at the two branch boundaries. *)
Lemma moisture_polynomial_at_boundaries :
  moisture_polynomial 4.1 = 0.998455099613 /\
  moisture_polynomial 24 = 0.02523808.
Proof. unfold moisture_polynomial; split; lra. Qed.

(** C3, as stated, fails: the quartic is neither 1 at 4.1 nor 0 at 24,
    and at 24 (where the source takes the quartic branch) the function
    itself does not return 0. *)
Lemma moisture_boundaries_not_continuous :
  moisture_polynomial 4.1 <> 1 /\
  moisture_polynomial 24 <> 0 /\
  calc_moisture_function (Py (Fin 24)) <> Ok (Np0 (Fin 0)).
Proof.
  destruct moisture_polynomial_at_boundaries as [H1 H2].
  repeat split; try lra.
  rewrite calc_moisture_function_real. unfold moisture_effect.
  rewrite Rleb_false, Rltb_false by lra.
  rewrite H2. intros E. injection E. lra.
Qed.

(** C3, amended: the quartic is 0.998455099613 at 4.1 and 0.02523808 at
    24, so the function steps down from 1 at 4.1 to values of the quartic
    just above it, and from 0.02523808 at 24 to 0 just above it. *)
Theorem moisture_boundary_values :
  moisture_polynomial 4.1 = 0.998455099613 /\
  moisture_polynomial 24 = 0.02523808 /\
  calc_moisture_function (Py (Fin 4.1)) = Ok (Np0 (Fin 1)) /\
  calc_moisture_function (Py (Fin 24)) = Ok (Np0 (Fin 0.02523808)) /\
  (forall m : R, 4.1 < m <= 24 ->
     calc_moisture_function (Py (Fin m)) = Ok (Np0 (Fin (moisture_polynomial m)))) /\
  (forall m : R, 24 < m ->
     calc_moisture_function (Py (Fin m)) = Ok (Np0 (Fin 0))).
Proof.
  destruct moisture_polynomial_at_boundaries as [H1 H2].
  repeat split; try assumption.
  - rewrite calc_moisture_function_real. unfold moisture_effect.
    rewrite Rleb_true by lra. reflexivity.
  - rewrite calc_moisture_function_real. unfold moisture_effect.
    rewrite Rleb_false, Rltb_false by lra.
    rewrite H2. reflexivity.
  - intros m Hm.
    rewrite calc_moisture_function_real. unfold moisture_effect.
    rewrite Rleb_false, Rltb_false by lra.
    reflexivity.
  - intros m Hm.
    rewrite calc_moisture_function_real. unfold moisture_effect.
    rewrite Rleb_false, Rltb_true by lra.
    reflexivity.
Qed.

(** ** The rate-of-spread blender *)

(** The blender on Python numbers; the third rate and the third
    probability may be any float, [nan] and the infinities included. *)
Lemma calc_rate_of_spread_scalar (ros1 ros2 p2 : R) (ros3 p3 : float) :
  calc_rate_of_spread (Py (Fin ros1)) (Py (Fin ros2)) (Py ros3) (Py (Fin p2)) (Py p3) =
  Ok (Np0 (if Rltb p2 0.5
           then Fin (blend_two_term ros1 ros2 p2)
           else fadd (fadd (Fin (ros1 * (1 - p2)))
                           (fmul (Fin (ros2 * p2)) (fsub (Fin 1) p3)))
                     (fmul ros3 p3))).
Proof. reflexivity. Qed.

Lemma calc_rate_of_spread_real (ros1 ros2 ros3 p2 p3 : R) :
  calc_rate_of_spread
    (Py (Fin ros1)) (Py (Fin ros2)) (Py (Fin ros3)) (Py (Fin p2)) (Py (Fin p3)) =
  Ok (Np0 (Fin (if Rltb p2 0.5
                then blend_two_term ros1 ros2 p2
                else blend_three_term ros1 ros2 ros3 p2 p3))).
Proof.
  rewrite calc_rate_of_spread_scalar. cbn.
  destruct (Rltb p2 0.5); reflexivity.
Qed.

(** C1, as stated, fails: at a Phase-2 probability of exactly 0.5 the
    blend of rates 0, 0 and 1 with a Phase-3 probability of 1 is 1, while
    the two-term form gives 0. *)
Lemma blend_at_half_not_two_term :
  calc_rate_of_spread
    (Py (Fin 0)) (Py (Fin 0)) (Py (Fin 1)) (Py (Fin 0.5)) (Py (Fin 1)) =
  Ok (Np0 (Fin 1)) /\
  blend_two_term 0 0 0.5 = 0 /\
  calc_rate_of_spread
    (Py (Fin 0)) (Py (Fin 0)) (Py (Fin 1)) (Py (Fin 0.5)) (Py (Fin 1)) <>
  Ok (Np0 (Fin (blend_two_term 0 0 0.5))).
Proof.
  assert (E : calc_rate_of_spread
                (Py (Fin 0)) (Py (Fin 0)) (Py (Fin 1)) (Py (Fin 0.5)) (Py (Fin 1)) =
              Ok (Np0 (Fin 1))).
  { rewrite calc_rate_of_spread_real, Rltb_false by lra.
    unfold blend_three_term. do 3 f_equal. lra. }
  assert (T : blend_two_term 0 0 0.5 = 0) by (unfold blend_two_term; lra).
  repeat split; try assumption.
  rewrite E, T. intros H. injection H. lra.
Qed.

(** C1, amended: at a Phase-2 probability of exactly 0.5 the test
    [probability_phase2 < 0.5] is false and the result is the three-term
    form. *)
Theorem blend_at_half_three_term (ros1 ros2 ros3 p3 : R) :
  calc_rate_of_spread
    (Py (Fin ros1)) (Py (Fin ros2)) (Py (Fin ros3)) (Py (Fin 0.5)) (Py (Fin p3)) =
  Ok (Np0 (Fin (blend_three_term ros1 ros2 ros3 0.5 p3))).
Proof.
  rewrite calc_rate_of_spread_real, Rltb_false by lra. reflexivity.
Qed.

(** C9: below a Phase-2 probability of 0.5 the blend is the two-term
    form, whatever the Phase-3 rate and probability are (any float, [nan]
    included), so two runs that differ only in them agree. *)
Theorem blend_ignores_phase3_below_half
  (ros1 ros2 p2 : R) (ros3 p3 ros3' p3' : float) :
  p2 < 0.5 ->
  calc_rate_of_spread (Py (Fin ros1)) (Py (Fin ros2)) (Py ros3) (Py (Fin p2)) (Py p3) =
  calc_rate_of_spread (Py (Fin ros1)) (Py (Fin ros2)) (Py ros3') (Py (Fin p2)) (Py p3') /\
  calc_rate_of_spread (Py (Fin ros1)) (Py (Fin ros2)) (Py ros3) (Py (Fin p2)) (Py p3) =
  Ok (Np0 (Fin (blend_two_term ros1 ros2 p2))).
Proof.
  intros H. rewrite !calc_rate_of_spread_scalar, Rltb_true by assumption.
  split; reflexivity.
Qed.

Lemma blend_ignores_phase3_below_half_witness :
  0.25 < 0.5 /\
  calc_rate_of_spread (Py (Fin 100)) (Py (Fin 400)) (Py (Fin 900)) (Py (Fin 0.25)) (Py (Fin 1)) =
  calc_rate_of_spread (Py (Fin 100)) (Py (Fin 400)) (Py NaN) (Py (Fin 0.25)) (Py (Fin 0)).
Proof.
  split; [lra |].
  apply (blend_ignores_phase3_below_half 100 400 0.25 (Fin 900) (Fin 1) NaN (Fin 0)).
  lra.
Defined.

(** ** The slope effect *)

Lemma Rpower_2_gt_1 (e : R) : 0 < e -> 1 < Rpower 2 e.
Proof.
  intros H. rewrite <- (Rpower_O 2) by lra.
  apply Rpower_lt; lra.
Qed.

Lemma calc_slope_effect_zero :
  calc_slope_effect (Py (Fin 0)) = Ok (Np0 (Fin 1)).
Proof. unfold calc_slope_effect. py_eval. reflexivity. Qed.

Lemma calc_slope_effect_upslope (slope : R) :
  0 < slope ->
  calc_slope_effect (Py (Fin slope)) = Ok (Np0 (Fin (Rpower 2 (slope / 10)))).
Proof.
  intros H. unfold calc_slope_effect. py_eval.
  rewrite fpow_pos_base by lra. reflexivity.
Qed.

Lemma calc_slope_effect_downslope (slope : R) :
  slope < 0 ->
  calc_slope_effect (Py (Fin slope)) = Ok (Np0 (Fin (downslope_effect slope))).
Proof.
  intros H. unfold calc_slope_effect. py_eval.
  rewrite !fpow_pos_base by lra.
  assert (Hx : 1 < Rpower 2 (- slope / 10)) by (apply Rpower_2_gt_1; lra).
  py_eval. reflexivity.
Qed.

Lemma downslope_effect_bounds (slope : R) :
  slope < 0 -> 1 / 2 < downslope_effect slope < 1.
Proof.
  intros H. unfold downslope_effect.
  assert (Hx : 1 < Rpower 2 (- slope / 10)) by (apply Rpower_2_gt_1; lra).
  set (x := Rpower 2 (- slope / 10)) in *.
  split.
  - apply Rmult_lt_reg_r with (2 * x - 1); [lra |].
    unfold Rdiv at 2. rewrite Rmult_assoc, Rinv_l by lra. lra.
  - apply Rmult_lt_reg_r with (2 * x - 1); [lra |].
    unfold Rdiv. rewrite Rmult_assoc, Rinv_l by lra. lra.
Qed.

Section Binary64Examples.
Import Floats.
Local Open Scope float_scope.

(** C10, as stated, fails in binary64.  At a slope of -600 the exponent
    [-slope / 10] is 60 and [np.power] returns 2^60; [2 * x - 1] then
    rounds to [2 * x], and the quotient is 0.5 exactly, not above it.  At
    a slope of -10230 the power is 2^1023, [2 * x] overflows to [inf], and
    the quotient is 0. *)
Lemma downslope_bounds_reached_in_binary64 :
  calc_slope_effect_binary64 (-600) = Some 0.5 /\
  calc_slope_effect_binary64 (-10230) = Some 0.
Proof. split; vm_compute; reflexivity. Qed.

(** With the bounds included the range holds in binary64 at every whole
    number of tens of degrees downhill, up to the last one before the
    overflow. *)
Lemma downslope_range_in_binary64 (n : nat) :
  (1 <= n <= 1022)%nat -> in_downslope_range n = true.
Proof.
  intros H.
  assert (A : forallb in_downslope_range (seq 1 1022) = true)
    by (vm_compute; reflexivity).
  rewrite forallb_forall in A. apply A. apply in_seq. lia.
Qed.

End Binary64Examples.

(** C10, amended: on every strictly negative slope above -10230 the
    slope effect is a real of at least 1/2 and at most 1. *)
Theorem calc_slope_effect_downslope_range (slope : R) :
  -10230 < slope < 0 ->
  exists y : R,
    calc_slope_effect (Py (Fin slope)) = Ok (Np0 (Fin y)) /\ 1 / 2 <= y <= 1.
Proof.
  intros [_ H]. exists (downslope_effect slope). split.
  - apply calc_slope_effect_downslope; assumption.
  - pose proof (downslope_effect_bounds slope H). lra.
Qed.

Lemma calc_slope_effect_downslope_range_witness :
  -10230 < -10 < 0 /\
  exists y : R,
    calc_slope_effect (Py (Fin (-10))) = Ok (Np0 (Fin y)) /\ 1 / 2 <= y <= 1.
Proof.
  split; [lra |].
  apply (calc_slope_effect_downslope_range (-10)). lra.
Defined.

Lemma calc_slope_effect_scalar (slope : R) :
  exists y : R, calc_slope_effect (Py (Fin slope)) = Ok (Np0 (Fin y)).
Proof.
  destruct (Rtotal_order slope 0) as [H | [-> | H]].
  - eexists; apply calc_slope_effect_downslope; assumption.
  - eexists; apply calc_slope_effect_zero.
  - eexists; apply calc_slope_effect_upslope; lra.
Qed.

(** ** Fuel availability *)

Lemma availability_denominator_pos (d : R) : 0 < 1 + 104.9 * exp (-0.9306 * d).
Proof. pose proof (exp_pos (-0.9306 * d)). nra. Qed.

(** The dry-forest branch on a real drought factor: the drought index
    and the wind reduction factor are not read. *)
Lemma calc_fuel_availability_dry (DF : R) (DI wrf : num) :
  calc_fuel_availability (Py (Fin DF)) DI wrf false = Ok (Np0 (Fin (availability DF))).
Proof.
  unfold calc_fuel_availability. py_eval.
  pose proof (availability_denominator_pos DF).
  py_eval. reflexivity.
Qed.

Lemma availability_monotone (d1 d2 : R) :
  d1 <= d2 -> availability d1 <= availability d2.
Proof.
  intros H. unfold availability.
  pose proof (availability_denominator_pos d1) as P1.
  pose proof (availability_denominator_pos d2) as P2.
  assert (E : exp (-0.9306 * d2) <= exp (-0.9306 * d1)).
  { destruct (Req_dec_T d1 d2) as [-> | Hne]; [lra |].
    left; apply exp_increasing; lra. }
  unfold Rdiv. apply Rmult_le_compat_l; [lra |].
  apply Rinv_le_contravar; lra.
Qed.

(** C6: in the dry-forest branch the fuel availability is non-decreasing
    in the drought factor, the other parameters being fixed. *)
Theorem calc_fuel_availability_dry_monotone (DF1 DF2 : R) (DI wrf : num) :
  DF1 <= DF2 ->
  exists a1 a2 : R,
    calc_fuel_availability (Py (Fin DF1)) DI wrf false = Ok (Np0 (Fin a1)) /\
    calc_fuel_availability (Py (Fin DF2)) DI wrf false = Ok (Np0 (Fin a2)) /\
    a1 <= a2.
Proof.
  intros H. exists (availability DF1), (availability DF2).
  rewrite !calc_fuel_availability_dry.
  repeat split. apply availability_monotone; assumption.
Qed.

Lemma calc_fuel_availability_dry_monotone_witness :
  2 <= 8 /\
  exists a1 a2 : R,
    calc_fuel_availability (Py (Fin 2)) (Py (Fin 100)) (Py (Fin 3)) false =
      Ok (Np0 (Fin a1)) /\
    calc_fuel_availability (Py (Fin 8)) (Py (Fin 100)) (Py (Fin 3)) false =
      Ok (Np0 (Fin a2)) /\
    a1 <= a2.
Proof.
  split; [lra |].
  apply (calc_fuel_availability_dry_monotone 2 8 (Py (Fin 100)) (Py (Fin 3))). lra.
Defined.

(** The dry-forest branch on an array of drought factors works position
    by position. *)
Lemma calc_fuel_availability_dry_array (DFs : list R) (DI wrf : num) :
  calc_fuel_availability (Np1 (map Fin DFs)) DI wrf false =
  Ok (Np1 (map (fun d => Fin (availability d)) DFs)).
Proof.
  unfold calc_fuel_availability. cbn -[fpow].
  rewrite !map_map. do 2 f_equal.
  apply map_ext. intros d. py_eval.
  pose proof (availability_denominator_pos d).
  py_eval. reflexivity.
Qed.

Lemma fmaximum_Fin (x y : R) : fmaximum (Fin x) (Fin y) = Fin (Rmax x y).
Proof.
  cbn. unfold Rmax.
  destruct (Rle_dec x y) as [H | H].
  - destruct (Req_dec_T x y) as [-> | N].
    + rewrite Rltb_false by lra. reflexivity.
    + rewrite Rltb_true by lra. reflexivity.
  - rewrite Rltb_false by lra. reflexivity.
Qed.

Lemma fminimum_Fin (x y : R) : fminimum (Fin x) (Fin y) = Fin (Rmin x y).
Proof.
  cbn. unfold Rmin.
  destruct (Rle_dec x y) as [H | H].
  - rewrite Rltb_false by lra. reflexivity.
  - rewrite Rltb_true by lra. reflexivity.
Qed.

Ltac py_eval_clip :=
  repeat (progress (cbn -[fpow fmaximum fminimum]; unfold fgt; decide_tests;
                    rewrite ?fmaximum_Fin, ?fminimum_Fin)).

(** After [max] has picked [0] (a Python number) or [C1 + C2] (a NumPy
    scalar), finish the evaluation of the wet-forest branch. *)
Ltac finish_wet_branch c side :=
  py_eval_clip;
  match goal with
  | |- context [Reqb (1 + 104.9 * exp ?d) 0] => pose proof (exp_pos d)
  end;
  py_eval_clip; rewrite (side (c + 0) 0) by lra; reflexivity.

(** The wet-forest branch on real scalars: [C1 + C2] is floored at 0, the
    scaled drought factor is clipped to [[0, 10]]. *)
Lemma calc_fuel_availability_wet (DF DI wrf : R) :
  calc_fuel_availability (Py (Fin DF)) (Py (Fin DI)) (Py (Fin wrf)) true =
  Ok (Np0 (Fin (availability (wet_drought_factor DF DI wrf)))).
Proof.
  unfold calc_fuel_availability.
  cbn -[fpow fmaximum fminimum]. rewrite !fpow_positive. py_eval_clip.
  match goal with
  | |- context [Rltb (?c + 0) 0] =>
      replace c with (wet_C1 DI wrf) by (unfold wet_C1; simpl; ring)
  end.
  unfold wet_drought_factor. generalize (wet_C1 DI wrf) as c. intros c.
  destruct (Rlt_dec (c + 0) 0) as [Hc | Hc].
  - rewrite (Rltb_true (c + 0) 0) by assumption.
    finish_wet_branch c Rmax_right.
  - rewrite (Rltb_false (c + 0) 0) by lra.
    finish_wet_branch c Rmax_left.
Qed.

(** The wet-forest branch on an array of drought factors, with a scalar
    drought index: position by position, as the scalar call. *)
Lemma calc_fuel_availability_wet_array (DFs : list R) (DI wrf : R) :
  calc_fuel_availability (Np1 (map Fin DFs)) (Py (Fin DI)) (Py (Fin wrf)) true =
  Ok (Np1 (map (fun d => Fin (availability (wet_drought_factor d DI wrf))) DFs)).
Proof.
  unfold calc_fuel_availability.
  cbn -[fpow fmaximum fminimum]. rewrite !fpow_positive. py_eval_clip.
  match goal with
  | |- context [Rltb (?c + 0) 0] =>
      replace c with (wet_C1 DI wrf) by (unfold wet_C1; simpl; ring)
  end.
  unfold wet_drought_factor. generalize (wet_C1 DI wrf) as c. intros c.
  destruct (Rlt_dec (c + 0) 0) as [Hc | Hc].
  - rewrite (Rltb_true (c + 0) 0) by assumption. py_eval_clip.
    rewrite !map_map. do 2 f_equal. apply map_ext. intros d.
    finish_wet_branch c Rmax_right.
  - rewrite (Rltb_false (c + 0) 0) by lra. py_eval_clip.
    rewrite !map_map. do 2 f_equal. apply map_ext. intros d.
    finish_wet_branch c Rmax_left.
Qed.

(** C2: with [wet_forest] set and a drought index given as an array of
    two observations the call raises [ValueError], where the claim has it
    evaluate position by position: the builtin [max] asks for the truth
    value of the array [0 > C1 + C2]. *)
Theorem calc_fuel_availability_wet_array_raises :
  calc_fuel_availability
    (Np1 [Fin 5; Fin 5]) (Np1 [Fin 100; Fin 100]) (Py (Fin 3)) true =
  Raise ValueError.
Proof. reflexivity. Qed.

(** The same for every drought factor and every drought index array of
    two or more observations, with a scalar wind reduction factor. *)
Lemma calc_fuel_availability_wet_long_index
  (DF : num) (wrf : float) (d1 d2 : float) (DIs : list float) :
  calc_fuel_availability DF (Np1 (d1 :: d2 :: DIs)) (Py wrf) true = Raise ValueError.
Proof. destruct DF; reflexivity. Qed.

(** ** Understorey height and the Phase-2 rate *)

Lemma fmul_NaN_r (x : float) : fmul x NaN = NaN.
Proof. destruct x; reflexivity. Qed.

Lemma calc_height_understorey_real (FHS_elevated height_elevated : R) :
  calc_height_understorey (Py (Fin FHS_elevated)) (Py (Fin height_elevated)) =
  Ok (Py (Fin (-0.1 + 0.06 * FHS_elevated + 0.48 * height_elevated))).
Proof. reflexivity. Qed.

(** C8: the understorey height of a zero hazard score and a zero elevated
    height is -0.1, and on every negative understorey height the Phase-2
    rate is [nan] (the power 0.495 of a negative base); nothing is raised
    on account of the height: the only exception of the call is Python's
    [ZeroDivisionError] for a zero wind reduction factor. *)
Theorem negative_understorey_height_gives_nan
  (wind_speed fuel_moisture fuel_availability fuel_load_surface wrf
     height_understorey slope : R) :
  height_understorey < 0 ->
  calc_height_understorey (Py (Fin 0)) (Py (Fin 0)) = Ok (Py (Fin (-0.1))) /\
  calculate_ros_phase2
    (Py (Fin wind_speed)) (Py (Fin fuel_moisture)) (Py (Fin fuel_availability))
    (Py (Fin fuel_load_surface)) (Py (Fin wrf)) (Py (Fin height_understorey))
    (Py (Fin slope)) =
  if Reqb wrf 0 then Raise ZeroDivisionError else Ok (Np0 NaN).
Proof.
  intros H. split.
  - rewrite calc_height_understorey_real. do 3 f_equal. lra.
  - unfold calculate_ros_phase2.
    rewrite calc_moisture_function_real.
    destruct (calc_slope_effect_scalar slope) as [y ->].
    cbn -[fpow fmul].
    destruct (Req_dec_T wrf 0) as [-> | Hw].
    + rewrite Reqb_true by reflexivity. reflexivity.
    + rewrite !(Reqb_false wrf 0) by assumption.
      cbn -[fpow fmul].
      rewrite (Reqb_false 10 0) by lra. cbn -[fpow fmul].
      rewrite (fpow_neg_base height_understorey 0.495 0) by lra.
      rewrite fmul_NaN_r. reflexivity.
Qed.

Lemma negative_understorey_height_gives_nan_witness :
  -0.1 < 0 /\
  calc_height_understorey (Py (Fin 0)) (Py (Fin 0)) = Ok (Py (Fin (-0.1))) /\
  calculate_ros_phase2
    (Py (Fin 20)) (Py (Fin 10)) (Py (Fin 0.9))
    (Py (Fin 15)) (Py (Fin 3)) (Py (Fin (-0.1)))
    (Py (Fin 0)) =
  Ok (Np0 NaN).
Proof.
  split; [lra |].
  pose proof (negative_understorey_height_gives_nan 20 10 0.9 15 3 (-0.1) 0) as H.
  rewrite (Reqb_false 3 0) in H by lra.
  apply H. lra.
Defined.

(** ** The Phase-2 transition probability *)

Lemma logistic_denominator_pos (g : R) : 0 < 1 + exp (- g).
Proof. pose proof (exp_pos (- g)). lra. Qed.

(** On Python numbers with a wind reduction factor other than zero. *)
Lemma calc_probability_phase2_real
  (wind_speed fuel_moisture fuel_availability fuel_load_surface wrf : R) :
  wrf <> 0 ->
  calc_probability_phase2
    (Py (Fin wind_speed)) (Py (Fin fuel_moisture)) (Py (Fin fuel_availability))
    (Py (Fin fuel_load_surface)) (Py (Fin wrf)) =
  Ok (Np0 (Fin (if Rltb fuel_load_surface 1 then 0
                else logistic (phase2_logit wind_speed fuel_moisture
                                 fuel_availability fuel_load_surface wrf)))).
Proof.
  intros Hw. unfold calc_probability_phase2.
  rewrite calc_moisture_function_real.
  py_eval.
  match goal with
  | |- context [Reqb (1 + exp (- ?g)) 0] =>
      pose proof (logistic_denominator_pos g)
  end.
  py_eval.
  destruct (Rltb fuel_load_surface 1); reflexivity.
Qed.

(** The wind speed is divided by the wind reduction factor before the
    fuel load is looked at. *)
Lemma calc_probability_phase2_zero_wrf
  (wind_speed fuel_moisture fuel_availability fuel_load_surface : R) :
  calc_probability_phase2
    (Py (Fin wind_speed)) (Py (Fin fuel_moisture)) (Py (Fin fuel_availability))
    (Py (Fin fuel_load_surface)) (Py (Fin 0)) =
  Raise ZeroDivisionError.
Proof.
  unfold calc_probability_phase2.
  rewrite calc_moisture_function_real.
  py_eval. reflexivity.
Qed.

(** With a NumPy scalar for the zero wind reduction factor the division
    only yields [inf] or [nan], and the floor below 1 t/ha still applies. *)
Lemma calc_probability_phase2_numpy_zero_wrf
  (wind_speed fuel_moisture fuel_availability fuel_load_surface : R) :
  fuel_load_surface < 1 ->
  calc_probability_phase2
    (Py (Fin wind_speed)) (Py (Fin fuel_moisture)) (Py (Fin fuel_availability))
    (Py (Fin fuel_load_surface)) (Np0 (Fin 0)) =
  Ok (Np0 (Fin 0)).
Proof.
  intros H. unfold calc_probability_phase2.
  rewrite calc_moisture_function_real.
  cbn -[fadd fsub fmul fdiv fexp fneg].
  rewrite Rltb_true by assumption. reflexivity.
Qed.

(** C4, as stated, fails: with a fuel load of 0.5 t/ha (below 1) and a
    wind reduction factor of 0 the call on Python numbers raises
    [ZeroDivisionError] instead of returning 0. *)
Lemma probability_phase2_not_short_circuited :
  0.5 < 1 /\
  calc_probability_phase2
    (Py (Fin 20)) (Py (Fin 10)) (Py (Fin 0.9)) (Py (Fin 0.5)) (Py (Fin 0)) =
  Raise ZeroDivisionError /\
  calc_probability_phase2
    (Py (Fin 20)) (Py (Fin 10)) (Py (Fin 0.9)) (Py (Fin 0.5)) (Py (Fin 0)) <>
  Ok (Np0 (Fin 0)).
Proof.
  rewrite calc_probability_phase2_zero_wrf.
  repeat split; [lra | discriminate].
Qed.

(** C4, amended: for every wind reduction factor other than zero the
    probability is exactly 0 when the surface fuel load is below 1 and the
    logistic of [g_x] otherwise. *)
Theorem calc_probability_phase2_floor_or_logistic
  (wind_speed fuel_moisture fuel_availability fuel_load_surface wrf : R) :
  wrf <> 0 ->
  exists p : R,
    calc_probability_phase2
      (Py (Fin wind_speed)) (Py (Fin fuel_moisture)) (Py (Fin fuel_availability))
      (Py (Fin fuel_load_surface)) (Py (Fin wrf)) = Ok (Np0 (Fin p)) /\
    (fuel_load_surface < 1 -> p = 0) /\
    (1 <= fuel_load_surface ->
     p = logistic (phase2_logit wind_speed fuel_moisture fuel_availability
                     fuel_load_surface wrf)).
Proof.
  intros Hw. rewrite calc_probability_phase2_real by assumption.
  eexists; split; [reflexivity |]. split; intros H.
  - rewrite Rltb_true by assumption. reflexivity.
  - rewrite Rltb_false by assumption. reflexivity.
Qed.

Lemma calc_probability_phase2_floor_or_logistic_witness :
  3 <> 0 /\
  exists p : R,
    calc_probability_phase2
      (Py (Fin 20)) (Py (Fin 10)) (Py (Fin 0.9)) (Py (Fin 0.5)) (Py (Fin 3)) =
    Ok (Np0 (Fin p)) /\
    (0.5 < 1 -> p = 0) /\
    (1 <= 0.5 -> p = logistic (phase2_logit 20 10 0.9 0.5 3)).
Proof.
  split; [lra |].
  apply (calc_probability_phase2_floor_or_logistic 20 10 0.9 0.5 3). lra.
Defined.

(** ** Broadcasting *)

Lemma zip_with_length {A B C} (f : A -> B -> C) (xs : list A) (ys : list B) :
  length xs = length ys -> length (zip_with f xs ys) = length xs.
Proof.
  revert ys; induction xs as [| x xs IH]; intros [| y ys] H; simpl in *;
    try reflexivity; try discriminate.
  f_equal; apply IH; lia.
Qed.

Lemma fits_trans (d d' n : nat) : fits d' d -> fits d n -> fits d' n.
Proof. unfold fits; intros [-> | ->] [-> | ->]; auto. Qed.

Lemma Forall_fits_trans (d d' : nat) (ns : list nat) :
  fits d' d -> Forall (fits d) ns -> Forall (fits d') ns.
Proof.
  intros H F. eapply Forall_impl; [| exact F].
  intros n; apply fits_trans; assumption.
Qed.

(** A broadcast returns exactly when the two lengths fit each other, and
    then both fit the result. *)
Lemma broadcast_shaped {A B C} (f : A -> B -> C) (a : value A) (b : value B)
  (na nb : list nat) :
  Forall (fits (dim a)) na -> Forall (fits (dim b)) nb ->
  shaped (broadcast f a b) (na ++ nb).
Proof.
  intros Fa Fb.
  assert (K : forall v : value C,
             fits (dim v) (dim a) -> fits (dim v) (dim b) ->
             Forall (fits (dim v)) (na ++ nb)).
  { intros v Ha Hb. apply Forall_app; split;
      [apply (Forall_fits_trans (dim a)) | apply (Forall_fits_trans (dim b))];
      assumption. }
  destruct a as [x | x | xs], b as [y | y | ys]; cbn [broadcast shaped];
    try (apply K; cbn; unfold fits; rewrite ?length_map; auto; fail).
  destruct (Nat.eqb_spec (length xs) (length ys)) as [E | E].
  - apply K; cbn; unfold fits; rewrite zip_with_length by assumption; auto.
  - destruct xs as [| x [| x' xs]], ys as [| y [| y' ys]];
      cbn in E; cbn [shaped];
      try reflexivity; try (exfalso; apply E; reflexivity);
      apply K; cbn; unfold fits; rewrite ?length_map; auto.
Qed.

Lemma operator_shaped {A C} (py : A -> A -> C) (np : A -> A -> C)
  (a b : value A) (na nb : list nat) :
  Forall (fits (dim a)) na -> Forall (fits (dim b)) nb ->
  shaped (operator (fun x y => Ok (py x y)) np a b) (na ++ nb).
Proof.
  intros Fa Fb.
  destruct a as [x | x | xs], b as [y | y | ys];
    try (apply (broadcast_shaped np); assumption).
  cbn. apply Forall_app; split; assumption.
Qed.

Lemma lift2_shaped {A B C} (op : value A -> value B -> result (value C))
  (ea : result (value A)) (eb : result (value B)) (na nb : list nat) :
  (forall a b, Forall (fits (dim a)) na -> Forall (fits (dim b)) nb ->
               shaped (op a b) (na ++ nb)) ->
  shaped ea na -> shaped eb nb -> shaped (lift2 op ea eb) (na ++ nb).
Proof.
  intros Hop Ha Hb. destruct ea as [a | x]; cbn in *; [| assumption].
  destruct eb as [b | y]; cbn in *; [| assumption].
  apply Hop; assumption.
Qed.

Lemma ret_shaped (v : num) : shaped (ret v) [dim v].
Proof. cbn. constructor; [right; reflexivity | constructor]. Qed.

Lemma lit_shaped (r : R) : shaped (lit r) [].
Proof. cbn. constructor. Qed.

Lemma py_add_shaped (a b : expr) (na nb : list nat) :
  shaped a na -> shaped b nb -> shaped (py_add a b) (na ++ nb).
Proof. apply lift2_shaped. intros; apply operator_shaped; assumption. Qed.

Lemma py_sub_shaped (a b : expr) (na nb : list nat) :
  shaped a na -> shaped b nb -> shaped (py_sub a b) (na ++ nb).
Proof. apply lift2_shaped. intros; apply operator_shaped; assumption. Qed.

Lemma py_mul_shaped (a b : expr) (na nb : list nat) :
  shaped a na -> shaped b nb -> shaped (py_mul a b) (na ++ nb).
Proof. apply lift2_shaped. intros; apply operator_shaped; assumption. Qed.

Lemma py_lt_shaped (a b : expr) (na nb : list nat) :
  shaped a na -> shaped b nb -> shaped (py_lt a b) (na ++ nb).
Proof. apply lift2_shaped. intros; apply operator_shaped; assumption. Qed.

Lemma np_where_shaped (c : bexpr) (x y : expr) (nc nx ny : list nat) :
  shaped c nc -> shaped x nx -> shaped y ny ->
  shaped (np_where c x y) ((nc ++ nx) ++ ny).
Proof.
  intros Hc Hx Hy. unfold np_where.
  destruct c as [vc | e]; cbn in *; [| assumption].
  destruct x as [vx | e]; cbn in *; [| assumption].
  destruct y as [vy | e]; cbn in *; [| assumption].
  pose proof (broadcast_shaped pair vc vx nc nx Hc Hx) as Hcx.
  destruct (broadcast pair vc vx) as [cx | e]; cbn in *; [| assumption].
  apply broadcast_shaped; assumption.
Qed.

(** The blender raises nothing but [ValueError], and when it returns,
    the length of each of its five arguments fits the result. *)
Lemma calc_rate_of_spread_shaped
  (ros_phase1 ros_phase2 ros_phase3 probability_phase2 probability_phase3 : num) :
  exists ns : list nat,
    shaped (calc_rate_of_spread ros_phase1 ros_phase2 ros_phase3
              probability_phase2 probability_phase3) ns /\
    forall a : num,
      In a [ros_phase1; ros_phase2; ros_phase3;
            probability_phase2; probability_phase3] ->
      In (dim a) ns.
Proof.
  eexists; split.
  - unfold calc_rate_of_spread.
    repeat first [ apply np_where_shaped | apply py_add_shaped
                 | apply py_sub_shaped | apply py_mul_shaped
                 | apply py_lt_shaped | apply ret_shaped | apply lit_shaped ].
  - intros a Ha. cbn in Ha |- *.
    repeat (destruct Ha as [<- | Ha]; [tauto |]). contradiction.
Qed.

(** Arrays that are columns of one table of observations have equal
    lengths and combine row by row. *)
Lemma zip_with_map {A B C D} (f : B -> C -> D) (g : A -> B) (h : A -> C)
  (l : list A) :
  zip_with f (map g l) (map h l) = map (fun x => f (g x) (h x)) l.
Proof. induction l; simpl; [reflexivity | f_equal; assumption]. Qed.

Lemma broadcast_columns {A B C D} (f : B -> C -> D) (g : A -> B) (h : A -> C)
  (l : list A) :
  broadcast f (Np1 (map g l)) (Np1 (map h l)) =
  Ok (Np1 (map (fun x => f (g x) (h x)) l)).
Proof. cbn. rewrite !length_map, Nat.eqb_refl, zip_with_map. reflexivity. Qed.

Lemma broadcast_column_py {A B C D} (f : B -> C -> D) (g : A -> B) (y : C)
  (l : list A) :
  broadcast f (Np1 (map g l)) (Py y) = Ok (Np1 (map (fun x => f (g x) y) l)).
Proof. cbn. rewrite map_map. reflexivity. Qed.

Lemma broadcast_py_column {A B C D} (f : B -> C -> D) (x : B) (h : A -> C)
  (l : list A) :
  broadcast f (Py x) (Np1 (map h l)) = Ok (Np1 (map (fun a => f x (h a)) l)).
Proof. cbn. rewrite map_map. reflexivity. Qed.

Ltac py_eval_columns :=
  repeat (progress
            (cbn -[fpow broadcast fadd fsub fmul fdiv fle fgt flt];
             rewrite ?broadcast_columns, ?broadcast_column_py,
               ?broadcast_py_column)).

(** The moisture function on an array of real moistures returns, at each
    position, what the scalar call returns. *)
Lemma calc_moisture_function_array (ms : list R) :
  calc_moisture_function (Np1 (map Fin ms)) =
  Ok (Np1 (map (fun m => Fin (moisture_effect m)) ms)).
Proof.
  unfold calc_moisture_function, np_where. py_eval_columns.
  do 2 f_equal. apply map_ext. intros m.
  pose proof (calc_moisture_function_real m) as H.
  unfold calc_moisture_function in H.
  cbn -[fpow fadd fsub fmul fdiv fle fgt flt] in H.
  injection H as H. exact H.
Qed.

(** The blender on five columns of one table of observations (so five
    arrays of one length) returns, at each row, what the scalar call
    returns on that row. *)
Lemma calc_rate_of_spread_columns {O : Type} (ros1 ros2 ros3 p2 p3 : O -> R)
  (obs : list O) :
  calc_rate_of_spread
    (Np1 (map (fun o => Fin (ros1 o)) obs)) (Np1 (map (fun o => Fin (ros2 o)) obs))
    (Np1 (map (fun o => Fin (ros3 o)) obs)) (Np1 (map (fun o => Fin (p2 o)) obs))
    (Np1 (map (fun o => Fin (p3 o)) obs)) =
  Ok (Np1 (map (fun o => Fin (if Rltb (p2 o) 0.5
                              then blend_two_term (ros1 o) (ros2 o) (p2 o)
                              else blend_three_term (ros1 o) (ros2 o) (ros3 o)
                                     (p2 o) (p3 o)))
             obs)).
Proof.
  unfold calc_rate_of_spread, np_where. py_eval_columns.
  do 2 f_equal. apply map_ext. intros o. cbn.
  destruct (Rltb (p2 o) 0.5); reflexivity.
Qed.

(** On such columns, when every row has a Phase-2 probability below 0.5,
    the result does not depend on the Phase-3 columns. *)
Lemma calc_rate_of_spread_columns_below_half {O : Type}
  (ros1 ros2 ros3 p2 p3 : O -> R) (obs : list O) :
  Forall (fun o => p2 o < 0.5) obs ->
  calc_rate_of_spread
    (Np1 (map (fun o => Fin (ros1 o)) obs)) (Np1 (map (fun o => Fin (ros2 o)) obs))
    (Np1 (map (fun o => Fin (ros3 o)) obs)) (Np1 (map (fun o => Fin (p2 o)) obs))
    (Np1 (map (fun o => Fin (p3 o)) obs)) =
  Ok (Np1 (map (fun o => Fin (blend_two_term (ros1 o) (ros2 o) (p2 o))) obs)).
Proof.
  intros H. rewrite calc_rate_of_spread_columns.
  do 2 f_equal. apply map_ext_in. intros o Ho.
  rewrite Forall_forall in H. rewrite Rltb_true by (apply H; assumption).
  reflexivity.
Qed.

(** ** Lengths that do not broadcast

    Every operation of the engine passes the lengths of its operands
    on to its result or raises, so the lengths of the arguments a
    function reads all fit its result when it returns. *)

Lemma shaped_shaped_unless (P : Prop) {A} (e : result (value A)) (ns : list nat) :
  shaped e ns -> shaped_unless P e ns.
Proof. destruct e as [v | x]; cbn; [auto |]. intros ->. exact I. Qed.

Lemma shaped_unless_incl (P : Prop) {A} (e : result (value A)) (ms ns : list nat) :
  shaped_unless P e ms -> incl ns ms -> shaped_unless P e ns.
Proof.
  destruct e as [v | x]; cbn; [| trivial].
  intros F I. rewrite Forall_forall in *. auto.
Qed.

(** When two of the lengths an expression was computed from are
    incompatible, it raises. *)
Lemma shaped_unless_incompatible (P : Prop) {A B C} (e : result (value A))
  (ms : list nat) (a : value B) (b : value C) :
  shaped_unless P e ms -> In (dim a) ms -> In (dim b) ms -> incompatible a b ->
  e = Raise ValueError \/ (e = Raise ZeroDivisionError /\ P).
Proof.
  intros F Ha Hb (Na & Nb & Nab).
  destruct e as [v | [|]]; cbn in F; [| left; reflexivity | right; auto].
  exfalso. rewrite Forall_forall in F.
  destruct (F _ Ha) as [E1 | E1]; [contradiction |].
  destruct (F _ Hb) as [E2 | E2]; [contradiction |].
  congruence.
Qed.

Lemma Forall_fits_self {A} (v : value A) : Forall (fits (dim v)) [dim v].
Proof. constructor; [right; reflexivity | constructor]. Qed.

Section ShapedUnless.
Variable P : Prop.

Lemma broadcast_shaped_unless {A B C} (f : A -> B -> C) (a : value A) (b : value B)
  (na nb : list nat) :
  Forall (fits (dim a)) na -> Forall (fits (dim b)) nb ->
  shaped_unless P (broadcast f a b) (na ++ nb).
Proof. intros; apply shaped_shaped_unless, broadcast_shaped; assumption. Qed.

Lemma lift2_shaped_unless {A B C} (op : value A -> value B -> result (value C))
  (ea : result (value A)) (eb : result (value B)) (na nb : list nat) :
  (forall a b, Forall (fits (dim a)) na -> Forall (fits (dim b)) nb ->
               shaped_unless P (op a b) (na ++ nb)) ->
  shaped_unless P ea na -> shaped_unless P eb nb ->
  shaped_unless P (lift2 op ea eb) (na ++ nb).
Proof.
  intros Hop Ha Hb. destruct ea as [a | x]; cbn in *; [| assumption].
  destruct eb as [b | y]; cbn in *; [| assumption].
  apply Hop; assumption.
Qed.

Lemma var_shaped_unless (v : num) (ns : list nat) :
  Forall (fits (dim v)) ns -> shaped_unless P (ret v) ns.
Proof. intros H; exact H. Qed.

Lemma lit_shaped_unless (r : R) : shaped_unless P (lit r) [].
Proof. cbn. constructor. Qed.

Lemma py_add_shaped_unless (a b : expr) (na nb : list nat) :
  shaped_unless P a na -> shaped_unless P b nb ->
  shaped_unless P (py_add a b) (na ++ nb).
Proof.
  apply lift2_shaped_unless.
  intros; apply shaped_shaped_unless, operator_shaped; assumption.
Qed.

Lemma py_sub_shaped_unless (a b : expr) (na nb : list nat) :
  shaped_unless P a na -> shaped_unless P b nb ->
  shaped_unless P (py_sub a b) (na ++ nb).
Proof.
  apply lift2_shaped_unless.
  intros; apply shaped_shaped_unless, operator_shaped; assumption.
Qed.

Lemma py_mul_shaped_unless (a b : expr) (na nb : list nat) :
  shaped_unless P a na -> shaped_unless P b nb ->
  shaped_unless P (py_mul a b) (na ++ nb).
Proof.
  apply lift2_shaped_unless.
  intros; apply shaped_shaped_unless, operator_shaped; assumption.
Qed.

Lemma py_lt_shaped_unless (a b : expr) (na nb : list nat) :
  shaped_unless P a na -> shaped_unless P b nb ->
  shaped_unless P (py_lt a b) (na ++ nb).
Proof.
  apply lift2_shaped_unless.
  intros; apply shaped_shaped_unless, operator_shaped; assumption.
Qed.

Lemma py_le_shaped_unless (a b : expr) (na nb : list nat) :
  shaped_unless P a na -> shaped_unless P b nb ->
  shaped_unless P (py_le a b) (na ++ nb).
Proof.
  apply lift2_shaped_unless.
  intros; apply shaped_shaped_unless, operator_shaped; assumption.
Qed.

Lemma py_gt_shaped_unless (a b : expr) (na nb : list nat) :
  shaped_unless P a na -> shaped_unless P b nb ->
  shaped_unless P (py_gt a b) (na ++ nb).
Proof.
  apply lift2_shaped_unless.
  intros; apply shaped_shaped_unless, operator_shaped; assumption.
Qed.

Lemma py_eq_shaped_unless (a b : expr) (na nb : list nat) :
  shaped_unless P a na -> shaped_unless P b nb ->
  shaped_unless P (py_eq a b) (na ++ nb).
Proof.
  apply lift2_shaped_unless.
  intros; apply shaped_shaped_unless, operator_shaped; assumption.
Qed.

Lemma np_power_shaped_unless (a b : expr) (na nb : list nat) :
  shaped_unless P a na -> shaped_unless P b nb ->
  shaped_unless P (np_power a b) (na ++ nb).
Proof. apply lift2_shaped_unless. intros; apply broadcast_shaped_unless; assumption. Qed.

(** Division by a literal other than zero. *)
Lemma py_div_lit_shaped_unless (a : expr) (r : R) (na : list nat) :
  r <> 0 -> shaped_unless P a na -> shaped_unless P (py_div a (lit r)) (na ++ []).
Proof.
  intros Hr Ha. destruct a as [va | x]; cbn in *; [| assumption].
  destruct va as [x | x | xs];
    try (apply (broadcast_shaped_unless fdiv); [assumption | constructor]).
  cbn. rewrite Reqb_false by assumption. cbn.
  rewrite app_nil_r. assumption.
Qed.

(** Division by a NumPy value is NumPy's. *)
Lemma py_div_numpy_shaped_unless (a b : expr) (na nb : list nat) :
  numpy_valued b -> shaped_unless P a na -> shaped_unless P b nb ->
  shaped_unless P (py_div a b) (na ++ nb).
Proof.
  intros Hn Ha Hb. destruct a as [va | x]; cbn in *; [| assumption].
  destruct b as [vb | y]; cbn in *; [| assumption].
  destruct va as [x | x | xs], vb as [y | y | ys]; try contradiction;
    apply (broadcast_shaped_unless fdiv); assumption.
Qed.

Lemma dim_ufunc {A B} (f : A -> B) (v : value A) : dim (ufunc f v) = dim v.
Proof. destruct v; cbn; rewrite ?length_map; reflexivity. Qed.

Lemma np_exp_shaped_unless (a : expr) (na : list nat) :
  shaped_unless P a na -> shaped_unless P (np_exp a) na.
Proof.
  destruct a as [v | x]; cbn; [| trivial]. rewrite dim_ufunc. trivial.
Qed.

Lemma py_neg_shaped_unless (a : expr) (na : list nat) :
  shaped_unless P a na -> shaped_unless P (py_neg a) na.
Proof.
  destruct a as [v | x]; cbn; [| trivial].
  destruct v; cbn; rewrite ?length_map; trivial.
Qed.

Lemma np_where_shaped_unless (c : bexpr) (x y : expr) (nc nx ny : list nat) :
  shaped_unless P c nc -> shaped_unless P x nx -> shaped_unless P y ny ->
  shaped_unless P (np_where c x y) ((nc ++ nx) ++ ny).
Proof.
  intros Hc Hx Hy. unfold np_where.
  destruct c as [vc | e]; cbn in *; [| assumption].
  destruct x as [vx | e]; cbn in *; [| assumption].
  destruct y as [vy | e]; cbn in *; [| assumption].
  pose proof (broadcast_shaped pair vc vx nc nx Hc Hx) as Hcx.
  destruct (broadcast pair vc vx) as [cx | e]; cbn in *;
    [| rewrite Hcx; exact I].
  apply broadcast_shaped_unless; assumption.
Qed.

Lemma np_clip_shaped_unless (x lo hi : expr) (nx nl nh : list nat) :
  shaped_unless P x nx -> shaped_unless P lo nl -> shaped_unless P hi nh ->
  shaped_unless P (np_clip x lo hi) ((nx ++ nl) ++ nh).
Proof.
  intros Hx Hl Hh. unfold np_clip.
  destruct x as [vx | e]; cbn in *; [| assumption].
  destruct lo as [vl | e]; cbn in *; [| assumption].
  destruct hi as [vh | e]; cbn in *; [| assumption].
  pose proof (broadcast_shaped fmaximum vx vl nx nl Hx Hl) as Hm.
  destruct (broadcast fmaximum vx vl) as [m | e]; cbn in *;
    [| rewrite Hm; exact I].
  apply broadcast_shaped_unless; assumption.
Qed.

Lemma truth_shape (c : value bool) :
  match truth c with
  | Ok _ => dim c = 1%nat
  | Raise x => x = ValueError
  end.
Proof. destruct c as [b | b | [| b [| b' bs]]]; reflexivity. Qed.

(** The builtin [max] returns only when both operands have one position,
    and raises [ValueError] on longer arrays. *)
Lemma py_max_shaped_unless (a b : expr) (na nb : list nat) :
  shaped_unless P a na -> shaped_unless P b nb ->
  shaped_unless P (py_max a b) (na ++ nb).
Proof.
  intros Ha Hb. unfold py_max.
  destruct a as [va | e]; cbn [bind]; [| exact Ha].
  destruct b as [vb | e]; cbn [bind]; [| exact Hb].
  pose proof (py_gt_shaped_unless (ret vb) (ret va) [dim vb] [dim va]
                (Forall_fits_self vb) (Forall_fits_self va)) as Hc.
  destruct (py_gt (ret vb) (ret va)) as [c | e]; cbn [bind]; [| exact Hc].
  pose proof (truth_shape c) as T.
  destruct (truth c) as [t | e]; cbn [bind]; [| rewrite T; exact I].
  cbn in Hc, Ha, Hb. rewrite T in Hc.
  rewrite Forall_forall in Hc.
  assert (Eb : dim vb = 1%nat) by (destruct (Hc (dim vb)); cbn; auto).
  assert (Ea : dim va = 1%nat) by (destruct (Hc (dim va)); cbn; auto).
  rewrite Ea in Ha. rewrite Eb in Hb.
  cbn. destruct t; [rewrite Eb | rewrite Ea]; apply Forall_app; split; assumption.
Qed.

Lemma assign_shaped_unless (e : expr) (k : num -> expr) (ns ms : list nat) :
  shaped_unless P e ns ->
  (forall v : num, Forall (fits (dim v)) ns -> shaped_unless P (k v) ms) ->
  shaped_unless P (assign e k) ms.
Proof.
  intros He Hk. destruct e as [v | x]; cbn in *; [| assumption].
  apply Hk; assumption.
Qed.

End ShapedUnless.

(** [wind_speed / wrf] on two arguments. *)
Lemma py_div_args_shaped_unless (x y : num) :
  shaped_unless (python_zero_division x y) (py_div (ret x) (ret y)) ([dim x] ++ [dim y]).
Proof.
  destruct x as [a | a | xs], y as [b | b | ys];
    try (apply (broadcast_shaped_unless _ fdiv); apply Forall_fits_self).
  cbn. destruct b as [r | | |]; cbn;
    try (repeat constructor; right; reflexivity).
  unfold Reqb. destruct (Req_dec_T r 0) as [-> | N]; cbn.
  - split; [exists a; reflexivity | reflexivity].
  - repeat constructor; right; reflexivity.
Qed.

(** What never denotes a Python number. *)
Lemma broadcast_numpy_valued {A B C} (f : A -> B -> C) (a : value A) (b : value B) :
  numpy_valued (broadcast f a b).
Proof.
  destruct a as [x | x | xs], b as [y | y | ys]; cbn; try exact I.
  destruct (length xs =? length ys)%nat; [exact I |].
  destruct xs as [| x [| x' xs]], ys as [| y [| y' ys]]; exact I.
Qed.

Lemma np_exp_numpy_valued (a : expr) : numpy_valued (np_exp a).
Proof. destruct a as [[x | x | xs] | e]; exact I. Qed.

Lemma np_power_numpy_valued (a b : expr) : numpy_valued (np_power a b).
Proof.
  destruct a as [va | e]; [| exact I]. destruct b as [vb | e]; [| exact I].
  apply broadcast_numpy_valued.
Qed.

Lemma operator_numpy_valued_r {A C} (py : A -> A -> result C) (np : A -> A -> C)
  (a b : value A) :
  numpy_valued (Ok b) -> numpy_valued (operator py np a b).
Proof.
  intros H. destruct a as [x | x | xs], b as [y | y | ys]; try contradiction;
    apply (broadcast_numpy_valued np).
Qed.

Lemma operator_numpy_valued_l {A C} (py : A -> A -> result C) (np : A -> A -> C)
  (a b : value A) :
  numpy_valued (Ok a) -> numpy_valued (operator py np a b).
Proof.
  intros H. destruct a as [x | x | xs], b as [y | y | ys]; try contradiction;
    apply (broadcast_numpy_valued np).
Qed.

Lemma py_add_numpy_valued_r (a b : expr) :
  numpy_valued b -> numpy_valued (py_add a b).
Proof.
  intros H. destruct a as [va | e]; [| exact I]. destruct b as [vb | e]; [| exact I].
  apply operator_numpy_valued_r; assumption.
Qed.

Lemma py_mul_numpy_valued_r (a b : expr) :
  numpy_valued b -> numpy_valued (py_mul a b).
Proof.
  intros H. destruct a as [va | e]; [| exact I]. destruct b as [vb | e]; [| exact I].
  apply operator_numpy_valued_r; assumption.
Qed.

Lemma py_sub_numpy_valued_l (a b : expr) :
  numpy_valued a -> numpy_valued (py_sub a b).
Proof.
  intros H. destruct a as [va | e]; [| exact I]. destruct b as [vb | e]; [| exact I].
  apply operator_numpy_valued_l; assumption.
Qed.

Ltac numpy_valued_steps :=
  repeat first [ apply np_exp_numpy_valued | apply np_power_numpy_valued
               | apply py_add_numpy_valued_r | apply py_mul_numpy_valued_r
               | apply py_sub_numpy_valued_l ].

Ltac fit_leaf := first [eassumption | apply Forall_fits_self].

Ltac shaped_unless_step :=
  first [ apply np_where_shaped_unless | apply np_clip_shaped_unless
        | apply py_max_shaped_unless | apply np_power_shaped_unless
        | apply np_exp_shaped_unless | apply py_neg_shaped_unless
        | apply py_add_shaped_unless | apply py_sub_shaped_unless
        | apply py_mul_shaped_unless
        | apply py_div_args_shaped_unless
        | apply py_div_lit_shaped_unless; [lra |]
        | apply py_div_numpy_shaped_unless; [solve [numpy_valued_steps] | |]
        | apply py_lt_shaped_unless | apply py_le_shaped_unless
        | apply py_gt_shaped_unless | apply py_eq_shaped_unless
        | apply lit_shaped_unless
        | eapply var_shaped_unless; fit_leaf
        | eapply assign_shaped_unless; [| intros ? ?; cbv beta] ].

Ltac incl_leaves :=
  intros ? ?; repeat rewrite in_app_iff; cbn [In]; tauto.

Lemma calc_moisture_function_shaped_unless (P : Prop) (fuel_moisture : num)
  (ns : list nat) :
  Forall (fits (dim fuel_moisture)) ns ->
  shaped_unless P (calc_moisture_function fuel_moisture) ns.
Proof.
  intros H. eapply shaped_unless_incl.
  - unfold calc_moisture_function. repeat shaped_unless_step.
  - incl_leaves.
Qed.

Lemma calc_slope_effect_shaped_unless (P : Prop) (slope : num) (ns : list nat) :
  Forall (fits (dim slope)) ns -> shaped_unless P (calc_slope_effect slope) ns.
Proof.
  intros H. eapply shaped_unless_incl.
  - unfold calc_slope_effect. repeat shaped_unless_step.
  - incl_leaves.
Qed.

Ltac shaped_unless_steps :=
  repeat first [ shaped_unless_step
               | eapply calc_moisture_function_shaped_unless; fit_leaf
               | eapply calc_slope_effect_shaped_unless; fit_leaf ].

Ltac in_leaves :=
  let a := fresh "a" in
  let Ha := fresh "Ha" in
  intros a Ha; cbn [In] in Ha;
  repeat (destruct Ha as [<- | Ha];
          [repeat rewrite in_app_iff; cbn [In]; tauto |]);
  contradiction.

Lemma calc_fuel_availability_wet_shaped (DF DI wrf : num) :
  exists ms : list nat,
    shaped_unless False (calc_fuel_availability DF DI wrf true) ms /\
    forall a : num, In a [DF; DI; wrf] -> In (dim a) ms.
Proof.
  eexists; split.
  - unfold calc_fuel_availability. shaped_unless_steps.
  - in_leaves.
Qed.

Lemma calc_height_understorey_shaped (FHS_elevated height_elevated : num) :
  exists ms : list nat,
    shaped_unless False (calc_height_understorey FHS_elevated height_elevated) ms /\
    forall a : num, In a [FHS_elevated; height_elevated] -> In (dim a) ms.
Proof.
  eexists; split.
  - unfold calc_height_understorey. shaped_unless_steps.
  - in_leaves.
Qed.

Lemma calc_ros_phase1_shaped
  (wind_speed fuel_moisture fuel_availability fuel_load_surface wrf slope : num) :
  exists ms : list nat,
    shaped_unless (python_zero_division wind_speed wrf)
      (calc_ros_phase1 wind_speed fuel_moisture fuel_availability
         fuel_load_surface wrf slope) ms /\
    forall a : num,
      In a [wind_speed; fuel_moisture; fuel_availability; fuel_load_surface;
            wrf; slope] ->
      In (dim a) ms.
Proof.
  eexists; split.
  - unfold calc_ros_phase1. shaped_unless_steps.
  - in_leaves.
Qed.

Lemma calculate_ros_phase2_shaped
  (wind_speed fuel_moisture fuel_availability fuel_load_surface wrf
     height_understorey slope : num) :
  exists ms : list nat,
    shaped_unless (python_zero_division wind_speed wrf)
      (calculate_ros_phase2 wind_speed fuel_moisture fuel_availability
         fuel_load_surface wrf height_understorey slope) ms /\
    forall a : num,
      In a [wind_speed; fuel_moisture; fuel_availability; fuel_load_surface;
            wrf; height_understorey; slope] ->
      In (dim a) ms.
Proof.
  eexists; split.
  - unfold calculate_ros_phase2. shaped_unless_steps.
  - in_leaves.
Qed.

Lemma calc_ros_phase3_shaped (wind_speed fuel_moisture fuel_availability : num) :
  exists ms : list nat,
    shaped_unless False
      (calc_ros_phase3 wind_speed fuel_moisture fuel_availability) ms /\
    forall a : num,
      In a [wind_speed; fuel_moisture; fuel_availability] -> In (dim a) ms.
Proof.
  eexists; split.
  - unfold calc_ros_phase3. shaped_unless_steps.
  - in_leaves.
Qed.

Lemma calc_probability_phase2_shaped
  (wind_speed fuel_moisture fuel_availability fuel_load_surface wrf : num) :
  exists ms : list nat,
    shaped_unless (python_zero_division wind_speed wrf)
      (calc_probability_phase2 wind_speed fuel_moisture fuel_availability
         fuel_load_surface wrf) ms /\
    forall a : num,
      In a [wind_speed; fuel_moisture; fuel_availability; fuel_load_surface; wrf] ->
      In (dim a) ms.
Proof.
  eexists; split.
  - unfold calc_probability_phase2. shaped_unless_steps.
  - in_leaves.
Qed.

Lemma calc_probability_phase3_shaped
  (wind_speed fuel_moisture fuel_availability ros_phase2 : num) :
  exists ms : list nat,
    shaped_unless False
      (calc_probability_phase3 wind_speed fuel_moisture fuel_availability
         ros_phase2) ms /\
    forall a : num,
      In a [wind_speed; fuel_moisture; fuel_availability; ros_phase2] ->
      In (dim a) ms.
Proof.
  eexists; split.
  - unfold calc_probability_phase3. shaped_unless_steps.
  - in_leaves.
Qed.

(** Lengths that fit one another make the blender return. *)
Lemma broadcast_returns {A B C} (f : A -> B -> C) (a : value A) (b : value B)
  (n : nat) :
  fits n (dim a) -> fits n (dim b) -> returns_within n (broadcast f a b).
Proof.
  unfold returns_within, fits. intros Ha Hb.
  destruct a as [x | x | xs], b as [y | y | ys]; cbn [broadcast];
    try (eexists; split; [reflexivity |]; cbn; rewrite ?length_map; auto; fail).
  cbn in Ha, Hb.
  destruct (Nat.eqb_spec (length xs) (length ys)) as [E | E].
  - eexists; split; [reflexivity |]. cbn. rewrite zip_with_length; assumption.
  - destruct xs as [| x [| x' xs]], ys as [| y [| y' ys]]; cbn in *;
      try (exfalso; lia);
      (eexists; split; [reflexivity |]); cbn; rewrite ?length_map; cbn; auto.
Qed.

Lemma operator_returns {A C} (py : A -> A -> C) (np : A -> A -> C)
  (a b : value A) (n : nat) :
  fits n (dim a) -> fits n (dim b) ->
  returns_within n (operator (fun x y => Ok (py x y)) np a b).
Proof.
  intros Ha Hb.
  destruct a as [x | x | xs], b as [y | y | ys];
    try (apply (broadcast_returns np); assumption).
  eexists; split; [reflexivity |]. left; reflexivity.
Qed.

Lemma lift2_returns {A B C} (op : value A -> value B -> result (value C))
  (ea : result (value A)) (eb : result (value B)) (n : nat) :
  (forall a b, fits n (dim a) -> fits n (dim b) -> returns_within n (op a b)) ->
  returns_within n ea -> returns_within n eb -> returns_within n (lift2 op ea eb).
Proof.
  intros Hop (a & -> & Ha) (b & -> & Hb). cbn. apply Hop; assumption.
Qed.

Lemma ret_returns (v : num) (n : nat) : fits n (dim v) -> returns_within n (ret v).
Proof. intros H. exists v. split; [reflexivity | assumption]. Qed.

Lemma lit_returns (r : R) (n : nat) : returns_within n (lit r).
Proof. eexists; split; [reflexivity |]. left; reflexivity. Qed.

Lemma py_add_returns (a b : expr) (n : nat) :
  returns_within n a -> returns_within n b -> returns_within n (py_add a b).
Proof. apply lift2_returns. intros; apply operator_returns; assumption. Qed.

Lemma py_sub_returns (a b : expr) (n : nat) :
  returns_within n a -> returns_within n b -> returns_within n (py_sub a b).
Proof. apply lift2_returns. intros; apply operator_returns; assumption. Qed.

Lemma py_mul_returns (a b : expr) (n : nat) :
  returns_within n a -> returns_within n b -> returns_within n (py_mul a b).
Proof. apply lift2_returns. intros; apply operator_returns; assumption. Qed.

Lemma py_lt_returns (a b : expr) (n : nat) :
  returns_within n a -> returns_within n b -> returns_within n (py_lt a b).
Proof. apply lift2_returns. intros; apply operator_returns; assumption. Qed.

Lemma np_where_returns (c : bexpr) (x y : expr) (n : nat) :
  returns_within n c -> returns_within n x -> returns_within n y ->
  returns_within n (np_where c x y).
Proof.
  intros (vc & -> & Hc) (vx & -> & Hx) (vy & -> & Hy). unfold np_where. cbn [bind].
  destruct (broadcast_returns pair vc vx n Hc Hx) as (cx & -> & Hcx). cbn [bind].
  apply broadcast_returns; assumption.
Qed.

(** Lengths of which no two are incompatible are all 1 or one common
    length. *)
Lemma compatible_common_length (vs : list num) :
  ~ mismatched vs -> exists n : nat, Forall (fun v => fits n (dim v)) vs.
Proof.
  unfold mismatched, incompatible, fits.
  induction vs as [| v vs IH]; intros H.
  - exists 1%nat. constructor.
  - destruct (Nat.eq_dec (dim v) 1) as [E | E].
    + destruct IH as (n & F).
      { intros (a & b & Ha & Hb & Hab). apply H.
        exists a, b. repeat split; try (right; assumption); apply Hab. }
      exists n. constructor; [left; assumption | assumption].
    + exists (dim v). constructor; [right; reflexivity |].
      rewrite Forall_forall. intros b Hb.
      destruct (Nat.eq_dec (dim b) 1) as [E1 | E1]; [left; assumption |].
      destruct (Nat.eq_dec (dim b) (dim v)) as [E2 | E2]; [right; assumption |].
      exfalso. apply H. exists v, b.
      repeat split; [left; reflexivity | right; assumption | assumption
                    | assumption | congruence].
Qed.

Lemma calc_rate_of_spread_returns
  (ros_phase1 ros_phase2 ros_phase3 probability_phase2 probability_phase3 : num) :
  ~ mismatched [ros_phase1; ros_phase2; ros_phase3;
                probability_phase2; probability_phase3] ->
  exists v : num,
    calc_rate_of_spread ros_phase1 ros_phase2 ros_phase3
      probability_phase2 probability_phase3 = Ok v /\
    Forall (fun a => fits (dim v) (dim a))
      [ros_phase1; ros_phase2; ros_phase3; probability_phase2; probability_phase3].
Proof.
  intros H. destruct (compatible_common_length _ H) as (n & F).
  assert (R : returns_within n
                (calc_rate_of_spread ros_phase1 ros_phase2 ros_phase3
                   probability_phase2 probability_phase3)).
  { rewrite Forall_forall in F. unfold calc_rate_of_spread.
    repeat first [ apply np_where_returns | apply py_add_returns
                 | apply py_sub_returns | apply py_mul_returns
                 | apply py_lt_returns | apply lit_returns
                 | apply ret_returns; apply F; cbn; tauto ]. }
  destruct R as (v & E & _). exists v. split; [assumption |].
  destruct (calc_rate_of_spread_shaped ros_phase1 ros_phase2 ros_phase3
              probability_phase2 probability_phase3) as (ns & Hs & Hin).
  rewrite E in Hs. cbn in Hs. rewrite Forall_forall in Hs |- *.
  intros a Ha. apply Hs, Hin, Ha.
Qed.

(** The same for the other functions. *)
Lemma returns_within_returns {A} (n : nat) (e : result (value A)) :
  returns_within n e -> returns e.
Proof. intros (v & E & _). exists v. exact E. Qed.

Lemma returns_within_one {A} (n : nat) (e : result (value A)) :
  returns_within 1 e -> returns_within n e.
Proof.
  intros (v & E & [H | H]); exists v; (split; [exact E | left; exact H]).
Qed.

Lemma py_le_returns (a b : expr) (n : nat) :
  returns_within n a -> returns_within n b -> returns_within n (py_le a b).
Proof. apply lift2_returns. intros; apply operator_returns; assumption. Qed.

Lemma py_gt_returns (a b : expr) (n : nat) :
  returns_within n a -> returns_within n b -> returns_within n (py_gt a b).
Proof. apply lift2_returns. intros; apply operator_returns; assumption. Qed.

Lemma py_eq_returns (a b : expr) (n : nat) :
  returns_within n a -> returns_within n b -> returns_within n (py_eq a b).
Proof. apply lift2_returns. intros; apply operator_returns; assumption. Qed.

Lemma np_power_returns (a b : expr) (n : nat) :
  returns_within n a -> returns_within n b -> returns_within n (np_power a b).
Proof. apply lift2_returns. intros; apply broadcast_returns; assumption. Qed.

Lemma np_exp_returns (a : expr) (n : nat) :
  returns_within n a -> returns_within n (np_exp a).
Proof.
  intros (v & -> & H). eexists; split; [reflexivity |].
  rewrite dim_ufunc. assumption.
Qed.

Lemma py_neg_returns (a : expr) (n : nat) :
  returns_within n a -> returns_within n (py_neg a).
Proof.
  intros (v & -> & H). eexists; split; [reflexivity |].
  destruct v; cbn in *; rewrite ?length_map; assumption.
Qed.

Lemma py_div_lit_returns (a : expr) (r : R) (n : nat) :
  r <> 0 -> returns_within n a -> returns_within n (py_div a (lit r)).
Proof.
  intros Hr (v & -> & H).
  destruct v as [x | x | xs];
    try (apply (broadcast_returns fdiv); [assumption | left; reflexivity]).
  cbn. rewrite Reqb_false by assumption.
  eexists; split; [reflexivity |]. left; reflexivity.
Qed.

Lemma py_div_numpy_returns (a b : expr) (n : nat) :
  numpy_valued b -> returns_within n a -> returns_within n b ->
  returns_within n (py_div a b).
Proof.
  intros Hn (va & -> & Ha) (vb & -> & Hb).
  destruct va as [x | x | xs], vb as [y | y | ys]; try contradiction;
    apply (broadcast_returns fdiv); assumption.
Qed.

(** [wind_speed / wrf] returns unless it is Python's division by zero. *)
Lemma py_div_args_returns (x y : num) (n : nat) :
  ~ python_zero_division x y -> fits n (dim x) -> fits n (dim y) ->
  returns_within n (py_div (ret x) (ret y)).
Proof.
  intros Hz Hx Hy.
  destruct x as [a | a | xs], y as [b | b | ys];
    try (apply (broadcast_returns fdiv); assumption).
  cbn. destruct b as [r | | |]; cbn;
    try (eexists; split; [reflexivity |]; left; reflexivity).
  unfold Reqb. destruct (Req_dec_T r 0) as [-> | N]; cbn.
  - exfalso. apply Hz. split; [exists a; reflexivity | reflexivity].
  - eexists; split; [reflexivity |]. left; reflexivity.
Qed.

Lemma np_clip_returns (x lo hi : expr) (n : nat) :
  returns_within n x -> returns_within n lo -> returns_within n hi ->
  returns_within n (np_clip x lo hi).
Proof.
  intros (vx & -> & Hx) (vl & -> & Hl) (vh & -> & Hh). unfold np_clip. cbn [bind].
  destruct (broadcast_returns fmaximum vx vl n Hx Hl) as (m & -> & Hm). cbn [bind].
  apply broadcast_returns; assumption.
Qed.

(** The builtin [max] returns on operands of one position. *)
Lemma py_max_returns (a b : expr) :
  returns_within 1 a -> returns_within 1 b -> returns_within 1 (py_max a b).
Proof.
  intros (va & -> & Ha) (vb & -> & Hb). unfold py_max. cbn [bind].
  destruct (py_gt_returns (ret vb) (ret va) 1
              (ret_returns vb 1 Hb) (ret_returns va 1 Ha)) as (c & -> & Hc).
  cbn [bind].
  assert (T : exists t, truth c = Ok t).
  { destruct c as [t | t | [| t [| t' ts]]]; cbn in *;
      try (eexists; reflexivity); destruct Hc; discriminate. }
  destruct T as (t & ->). cbn [bind].
  eexists; split; [reflexivity |]. destruct t; assumption.
Qed.

Lemma assign_returns (e : expr) (k : num -> expr) (n : nat) :
  returns_within n e ->
  (forall v : num, fits n (dim v) -> returns_within n (k v)) ->
  returns_within n (assign e k).
Proof. intros (v & -> & H) Hk. cbn. apply Hk; assumption. Qed.

Ltac returns_step :=
  first [ apply np_where_returns | apply np_clip_returns
        | apply np_power_returns | apply np_exp_returns | apply py_neg_returns
        | apply py_add_returns | apply py_sub_returns | apply py_mul_returns
        | apply py_div_args_returns; [assumption | |]
        | apply py_div_lit_returns; [lra |]
        | apply py_div_numpy_returns; [solve [numpy_valued_steps] | |]
        | apply py_lt_returns | apply py_le_returns | apply py_gt_returns
        | apply py_eq_returns | apply lit_returns
        | apply ret_returns
        | apply assign_returns; [| intros ? ?; cbv beta]
        | assumption ].

Lemma calc_moisture_function_returns (fuel_moisture : num) (n : nat) :
  fits n (dim fuel_moisture) ->
  returns_within n (calc_moisture_function fuel_moisture).
Proof. intros H. unfold calc_moisture_function. repeat returns_step. Qed.

Lemma calc_slope_effect_returns (slope : num) (n : nat) :
  fits n (dim slope) -> returns_within n (calc_slope_effect slope).
Proof. intros H. unfold calc_slope_effect. repeat returns_step. Qed.

Ltac returns_steps :=
  repeat first [ apply calc_moisture_function_returns
               | apply calc_slope_effect_returns
               | returns_step ].

(** From arguments of which no two are mismatched to a common length. *)
Ltac common_length H n F :=
  destruct (compatible_common_length _ H) as (n & F);
  repeat match type of F with
         | Forall _ (_ :: _) =>
             let K := fresh "K" in
             apply Forall_cons_iff in F; destruct F as [K F]
         end.

Lemma calc_height_understorey_returns (FHS_elevated height_elevated : num) :
  ~ mismatched [FHS_elevated; height_elevated] ->
  returns (calc_height_understorey FHS_elevated height_elevated).
Proof.
  intros H. common_length H n F. apply (returns_within_returns n).
  unfold calc_height_understorey. returns_steps.
Qed.

Lemma calc_ros_phase1_returns
  (wind_speed fuel_moisture fuel_availability fuel_load_surface wrf slope : num) :
  ~ mismatched [wind_speed; fuel_moisture; fuel_availability; fuel_load_surface;
                wrf; slope] ->
  ~ python_zero_division wind_speed wrf ->
  returns (calc_ros_phase1 wind_speed fuel_moisture fuel_availability
             fuel_load_surface wrf slope).
Proof.
  intros H Hz. common_length H n F. apply (returns_within_returns n).
  unfold calc_ros_phase1. returns_steps.
Qed.

Lemma calculate_ros_phase2_returns
  (wind_speed fuel_moisture fuel_availability fuel_load_surface wrf
     height_understorey slope : num) :
  ~ mismatched [wind_speed; fuel_moisture; fuel_availability; fuel_load_surface;
                wrf; height_understorey; slope] ->
  ~ python_zero_division wind_speed wrf ->
  returns (calculate_ros_phase2 wind_speed fuel_moisture fuel_availability
             fuel_load_surface wrf height_understorey slope).
Proof.
  intros H Hz. common_length H n F. apply (returns_within_returns n).
  unfold calculate_ros_phase2. returns_steps.
Qed.

Lemma calc_ros_phase3_returns (wind_speed fuel_moisture fuel_availability : num) :
  ~ mismatched [wind_speed; fuel_moisture; fuel_availability] ->
  returns (calc_ros_phase3 wind_speed fuel_moisture fuel_availability).
Proof.
  intros H. common_length H n F. apply (returns_within_returns n).
  unfold calc_ros_phase3. returns_steps.
Qed.

Lemma calc_probability_phase2_returns
  (wind_speed fuel_moisture fuel_availability fuel_load_surface wrf : num) :
  ~ mismatched [wind_speed; fuel_moisture; fuel_availability; fuel_load_surface;
                wrf] ->
  ~ python_zero_division wind_speed wrf ->
  returns (calc_probability_phase2 wind_speed fuel_moisture fuel_availability
             fuel_load_surface wrf).
Proof.
  intros H Hz. common_length H n F. apply (returns_within_returns n).
  unfold calc_probability_phase2. returns_steps.
Qed.

Lemma calc_probability_phase3_returns
  (wind_speed fuel_moisture fuel_availability ros_phase2 : num) :
  ~ mismatched [wind_speed; fuel_moisture; fuel_availability; ros_phase2] ->
  returns (calc_probability_phase3 wind_speed fuel_moisture fuel_availability
             ros_phase2).
Proof.
  intros H. common_length H n F. apply (returns_within_returns n).
  unfold calc_probability_phase3. returns_steps.
Qed.

(** The dry-forest branch returns on every drought factor, whatever the
    other two arguments are. *)
Lemma calc_fuel_availability_dry_returns (DF DI wrf : num) :
  returns (calc_fuel_availability DF DI wrf false).
Proof.
  apply (returns_within_returns (dim DF)).
  assert (fits (dim DF) (dim DF)) by (right; reflexivity).
  unfold calc_fuel_availability. returns_steps.
Qed.

Lemma assign_returns_one (e : expr) (k : num -> expr) (n : nat) :
  returns_within 1 e ->
  (forall v : num, fits 1 (dim v) -> returns_within n (k v)) ->
  returns_within n (assign e k).
Proof. intros (v & -> & H) Hk. cbn. apply Hk; assumption. Qed.

(** The wet-forest branch returns when the drought index and the wind
    reduction factor have one position each. *)
Lemma calc_fuel_availability_wet_returns (DF DI wrf : num) :
  dim DI = 1%nat -> dim wrf = 1%nat ->
  returns (calc_fuel_availability DF DI wrf true).
Proof.
  intros HI Hw. apply (returns_within_returns (dim DF)).
  assert (HF : fits (dim DF) (dim DF)) by (right; reflexivity).
  assert (HI1 : fits 1 (dim DI)) by (left; assumption).
  assert (Hw1 : fits 1 (dim wrf)) by (left; assumption).
  unfold calc_fuel_availability.
  apply assign_returns; [| intros ? ?; cbv beta; returns_steps].
  apply assign_returns_one; [returns_steps |]. intros C1 HC1.
  apply assign_returns_one; [returns_steps |]. intros C2 HC2.
  apply assign_returns; [| intros ? ?; cbv beta; returns_steps].
  apply py_div_lit_returns; [lra |].
  apply py_mul_returns; [returns_steps |].
  apply returns_within_one, py_max_returns; returns_steps.
Qed.

(** Mismatched arguments make an expression raise. *)
Lemma mismatched_raises (P : Prop) (e : expr) (args : list num) :
  (exists ms : list nat,
     shaped_unless P e ms /\ forall a : num, In a args -> In (dim a) ms) ->
  mismatched args ->
  e = Raise ValueError \/ (e = Raise ZeroDivisionError /\ P).
Proof.
  intros (ms & Hs & Hin) (a & b & Ha & Hb & Hab).
  apply (shaped_unless_incompatible P e ms a b); auto.
Qed.

Lemma mismatched_raises_value_error (e : expr) (args : list num) :
  (exists ms : list nat,
     shaped_unless False e ms /\ forall a : num, In a args -> In (dim a) ms) ->
  mismatched args -> e = Raise ValueError.
Proof.
  intros H M. destruct (mismatched_raises False e args H M) as [E | [_ []]].
  exact E.
Qed.

Lemma calc_rate_of_spread_shaped_unless
  (ros_phase1 ros_phase2 ros_phase3 probability_phase2 probability_phase3 : num) :
  exists ms : list nat,
    shaped_unless False
      (calc_rate_of_spread ros_phase1 ros_phase2 ros_phase3
         probability_phase2 probability_phase3) ms /\
    forall a : num,
      In a [ros_phase1; ros_phase2; ros_phase3;
            probability_phase2; probability_phase3] ->
      In (dim a) ms.
Proof.
  destruct (calc_rate_of_spread_shaped ros_phase1 ros_phase2 ros_phase3
              probability_phase2 probability_phase3) as (ns & Hs & Hin).
  exists ns. split; [apply shaped_shaped_unless; assumption | assumption].
Qed.




(** * Further properties of the engine and its callers *)

(** ** More on the slope effect *)

Lemma calc_slope_effect_real (slope : R) :
  calc_slope_effect (Py (Fin slope)) = Ok (Np0 (Fin (slope_effect slope))).
Proof.
  unfold slope_effect.
  destruct (Rtotal_order slope 0) as [H | [-> | H]].
  - rewrite calc_slope_effect_downslope by assumption. decide_tests. reflexivity.
  - rewrite calc_slope_effect_zero. decide_tests. reflexivity.
  - rewrite calc_slope_effect_upslope by assumption. decide_tests. reflexivity.
Qed.

Lemma slope_effect_gt_half (slope : R) : 1 / 2 < slope_effect slope.
Proof.
  unfold slope_effect.
  destruct (Rtotal_order slope 0) as [H | [-> | H]]; decide_tests.
  - apply downslope_effect_bounds; assumption.
  - lra.
  - pose proof (Rpower_2_gt_1 (slope / 10)). lra.
Qed.

Lemma Rpower_2_le (a b : R) : a <= b -> Rpower 2 a <= Rpower 2 b.
Proof.
  intros [H | ->]; [| lra].
  left. apply Rpower_lt; lra.
Qed.

Lemma downslope_effect_monotone (s1 s2 : R) :
  s1 <= s2 -> s2 < 0 -> downslope_effect s1 <= downslope_effect s2.
Proof.
  intros H H2. unfold downslope_effect.
  assert (X1 : 1 < Rpower 2 (- s1 / 10)) by (apply Rpower_2_gt_1; lra).
  assert (X2 : 1 < Rpower 2 (- s2 / 10)) by (apply Rpower_2_gt_1; lra).
  assert (X : Rpower 2 (- s2 / 10) <= Rpower 2 (- s1 / 10))
    by (apply Rpower_2_le; lra).
  set (x1 := Rpower 2 (- s1 / 10)) in *. set (x2 := Rpower 2 (- s2 / 10)) in *.
  apply Rmult_le_reg_r with ((2 * x1 - 1) * (2 * x2 - 1)); [nra |].
  field_simplify; nra.
Qed.

Lemma slope_effect_monotone (s1 s2 : R) :
  s1 <= s2 -> slope_effect s1 <= slope_effect s2.
Proof.
  intros H. unfold slope_effect.
  destruct (Rtotal_order s1 0) as [H1 | [-> | H1]];
    destruct (Rtotal_order s2 0) as [H2 | [-> | H2]]; decide_tests; try lra.
  - apply downslope_effect_monotone; assumption.
  - pose proof (downslope_effect_bounds s1 H1). lra.
  - pose proof (downslope_effect_bounds s1 H1).
    pose proof (Rpower_2_gt_1 (s2 / 10)). lra.
  - pose proof (Rpower_2_gt_1 (s2 / 10)). lra.
  - apply Rpower_2_le. lra.
Qed.


(** X2: From a slope of -500 on, calc_slope_effect does not decrease
    when the slope increases, over downslope, flat ground and upslope
    together. *)
Theorem calc_slope_effect_monotone (slope1 slope2 : R) :
  -500 <= slope1 -> slope1 <= slope2 ->
  exists y1 y2 : R,
    calc_slope_effect (Py (Fin slope1)) = Ok (Np0 (Fin y1)) /\
    calc_slope_effect (Py (Fin slope2)) = Ok (Np0 (Fin y2)) /\
    y1 <= y2.
Proof.
  intros _ H. exists (slope_effect slope1), (slope_effect slope2).
  rewrite !calc_slope_effect_real. repeat split.
  apply slope_effect_monotone; assumption.
Qed.

Lemma calc_slope_effect_monotone_witness :
  -500 <= -5 /\ -5 <= 5 /\
  exists y1 y2 : R,
    calc_slope_effect (Py (Fin (-5))) = Ok (Np0 (Fin y1)) /\
    calc_slope_effect (Py (Fin 5)) = Ok (Np0 (Fin y2)) /\
    y1 <= y2.
Proof.
  split; [lra |]. split; [lra |].
  apply (calc_slope_effect_monotone (-5) 5); lra.
Defined.

(** X3: On upslope, ten more degrees of slope double the slope effect. *)
Theorem calc_slope_effect_doubles (slope : R) :
  0 < slope ->
  exists y : R,
    calc_slope_effect (Py (Fin slope)) = Ok (Np0 (Fin y)) /\
    calc_slope_effect (Py (Fin (slope + 10))) = Ok (Np0 (Fin (2 * y))).
Proof.
  intros H. exists (Rpower 2 (slope / 10)).
  rewrite !calc_slope_effect_upslope by lra. split; [reflexivity |].
  do 3 f_equal.
  replace ((slope + 10) / 10) with (1 + slope / 10) by lra.
  rewrite Rpower_plus, Rpower_1 by lra. reflexivity.
Qed.

Lemma calc_slope_effect_doubles_witness :
  0 < 5 /\
  exists y : R,
    calc_slope_effect (Py (Fin 5)) = Ok (Np0 (Fin y)) /\
    calc_slope_effect (Py (Fin (5 + 10))) = Ok (Np0 (Fin (2 * y))).
Proof.
  split; [lra |]. apply (calc_slope_effect_doubles 5). lra.
Defined.

(** ** Powers of a base that is not negative *)

(** A product of factors that are not negative. *)
Ltac nonneg_product :=
  repeat (apply Rmult_le_pos; [| first [assumption | lra | nra]]);
  first [assumption | lra | nra].

Lemma fpow_nonneg_base (b e : R) (z : Z) :
  0 <= b -> 0 < e -> IZR z < e < IZR z + 1 ->
  fpow (Fin b) (Fin e) = Fin (power b e).
Proof.
  intros Hb He Hz. unfold power.
  destruct (Req_dec_T b 0) as [-> | Hn].
  - unfold fpow. rewrite (Reqb_false e 0) by lra.
    rewrite (Rintb_between e z) by assumption.
    rewrite (Rltb_false 0 0) by lra. rewrite (Reqb_true 0 0) by reflexivity.
    rewrite (Rltb_true 0 e) by assumption. reflexivity.
  - rewrite fpow_pos_base by lra. rewrite Reqb_false by assumption. reflexivity.
Qed.

Lemma power_nonneg (b e : R) : 0 <= power b e.
Proof.
  unfold power. destruct (Reqb b 0); [lra |].
  left. apply exp_pos.
Qed.

Lemma power_zero (e : R) : power 0 e = 0.
Proof. unfold power. rewrite Reqb_true by reflexivity. reflexivity. Qed.

(** ** The three rates *)

Lemma moisture_effect_bounds (m : R) : 0 <= moisture_effect m <= 1.
Proof.
  unfold moisture_effect.
  destruct (Rle_dec m 4.1); [rewrite Rleb_true by assumption; lra |].
  rewrite Rleb_false by lra.
  destruct (Rlt_dec 24 m); [rewrite Rltb_true by assumption; lra |].
  rewrite Rltb_false by lra. apply moisture_polynomial_bounds. lra.
Qed.

Lemma moisture_effect_extinct (m : R) : 24 < m -> moisture_effect m = 0.
Proof. intros H. unfold moisture_effect. decide_tests. reflexivity. Qed.

Lemma calc_ros_phase1_low_wind
  (wind_speed fuel_moisture fuel_availability fuel_load_surface wrf slope : R) :
  wrf <> 0 -> wind_speed / wrf <= 2 ->
  calc_ros_phase1
    (Py (Fin wind_speed)) (Py (Fin fuel_moisture)) (Py (Fin fuel_availability))
    (Py (Fin fuel_load_surface)) (Py (Fin wrf)) (Py (Fin slope)) =
  Ok (Np0 (Fin (0.03 * (moisture_effect fuel_moisture * fuel_availability) *
                slope_effect slope * 1000))).
Proof.
  intros Hw Hu. unfold calc_ros_phase1.
  rewrite calc_moisture_function_real, calc_slope_effect_real.
  py_eval. reflexivity.
Qed.

Lemma calc_ros_phase1_real
  (wind_speed fuel_moisture fuel_availability fuel_load_surface wrf slope : R) :
  wrf <> 0 -> 0 <= fuel_load_surface ->
  calc_ros_phase1
    (Py (Fin wind_speed)) (Py (Fin fuel_moisture)) (Py (Fin fuel_availability))
    (Py (Fin fuel_load_surface)) (Py (Fin wrf)) (Py (Fin slope)) =
  Ok (Np0 (Fin (phase1_base (wind_speed / wrf) fuel_load_surface *
                (moisture_effect fuel_moisture * fuel_availability) *
                slope_effect slope * 1000))).
Proof.
  intros Hw Hf. unfold phase1_base.
  destruct (Rle_dec (wind_speed / wrf) 2) as [Hu | Hu].
  - rewrite calc_ros_phase1_low_wind by assumption.
    rewrite Rltb_false by assumption. reflexivity.
  - unfold calc_ros_phase1.
    rewrite calc_moisture_function_real, calc_slope_effect_real.
    py_eval.
    rewrite (fpow_pos_base (wind_speed / wrf - 1)) by lra.
    rewrite (fpow_nonneg_base (fuel_load_surface / 10) 0.79928 0) by lra.
    py_eval. reflexivity.
Qed.

Lemma phase1_base_ge (u fuel_load_surface : R) : 0.03 <= phase1_base u fuel_load_surface.
Proof.
  unfold phase1_base. destruct (Rltb 2 u); [| lra].
  pose proof (power_nonneg (fuel_load_surface / 10) 0.79928).
  assert (0 < Rpower (u - 1) 0.92628) by apply exp_pos.
  nra.
Qed.

Lemma phase1_base_monotone (u1 u2 fuel_load_surface : R) :
  u1 <= u2 -> phase1_base u1 fuel_load_surface <= phase1_base u2 fuel_load_surface.
Proof.
  intros H. unfold phase1_base.
  pose proof (power_nonneg (fuel_load_surface / 10) 0.79928) as P.
  destruct (Rlt_dec 2 u1) as [H1 | H1]; destruct (Rlt_dec 2 u2) as [H2 | H2];
    decide_tests; try lra.
  - assert (Rpower (u1 - 1) 0.92628 <= Rpower (u2 - 1) 0.92628)
      by (apply Rle_Rpower_l; lra).
    nra.
  - assert (0 < Rpower (u2 - 1) 0.92628) by apply exp_pos. nra.
Qed.

(** X4: When wind_speed / wrf is at most 2 (wrf other than 0) the
    Phase-1 rate is 0.03 * moisture effect * fuel availability * slope
    effect * 1000 and does not depend on the surface fuel load, not even
    on a negative load whose power in the discarded branch is nan. *)
Theorem calc_ros_phase1_low_wind_ignores_fuel_load
  (wind_speed fuel_moisture fuel_availability wrf slope load1 load2 : R) :
  wrf <> 0 -> wind_speed / wrf <= 2 ->
  calc_ros_phase1
    (Py (Fin wind_speed)) (Py (Fin fuel_moisture)) (Py (Fin fuel_availability))
    (Py (Fin load1)) (Py (Fin wrf)) (Py (Fin slope)) =
  calc_ros_phase1
    (Py (Fin wind_speed)) (Py (Fin fuel_moisture)) (Py (Fin fuel_availability))
    (Py (Fin load2)) (Py (Fin wrf)) (Py (Fin slope)) /\
  calc_ros_phase1
    (Py (Fin wind_speed)) (Py (Fin fuel_moisture)) (Py (Fin fuel_availability))
    (Py (Fin load1)) (Py (Fin wrf)) (Py (Fin slope)) =
  Ok (Np0 (Fin (0.03 * (moisture_effect fuel_moisture * fuel_availability) *
                slope_effect slope * 1000))).
Proof.
  intros Hw Hu. rewrite !calc_ros_phase1_low_wind by assumption.
  split; reflexivity.
Qed.

Lemma calc_ros_phase1_low_wind_ignores_fuel_load_witness :
  3 <> 0 /\ 3 / 3 <= 2 /\
  calc_ros_phase1
    (Py (Fin 3)) (Py (Fin 10)) (Py (Fin 0.9)) (Py (Fin 15)) (Py (Fin 3)) (Py (Fin 0)) =
  calc_ros_phase1
    (Py (Fin 3)) (Py (Fin 10)) (Py (Fin 0.9)) (Py (Fin (-4))) (Py (Fin 3)) (Py (Fin 0)).
Proof.
  split; [lra |]. split; [lra |].
  apply (calc_ros_phase1_low_wind_ignores_fuel_load 3 10 0.9 3 0 15 (-4)); lra.
Defined.

(** X5: For a wind reduction factor other than 0, a fuel availability
    and a surface fuel load that are not negative, the Phase-1 rate is a
    real that is not negative, whatever the wind, moisture and slope. *)
Theorem calc_ros_phase1_nonneg
  (wind_speed fuel_moisture fuel_availability fuel_load_surface wrf slope : R) :
  wrf <> 0 -> 0 <= fuel_availability -> 0 <= fuel_load_surface ->
  exists ros : R,
    calc_ros_phase1
      (Py (Fin wind_speed)) (Py (Fin fuel_moisture)) (Py (Fin fuel_availability))
      (Py (Fin fuel_load_surface)) (Py (Fin wrf)) (Py (Fin slope)) =
    Ok (Np0 (Fin ros)) /\ 0 <= ros.
Proof.
  intros Hw Ha Hf. rewrite calc_ros_phase1_real by assumption.
  eexists; split; [reflexivity |].
  pose proof (phase1_base_ge (wind_speed / wrf) fuel_load_surface).
  pose proof (moisture_effect_bounds fuel_moisture).
  pose proof (slope_effect_gt_half slope).
  assert (0 <= moisture_effect fuel_moisture * fuel_availability) by nra.
  assert (0 <= phase1_base (wind_speed / wrf) fuel_load_surface *
               (moisture_effect fuel_moisture * fuel_availability)) by nra.
  nra.
Qed.

Lemma calc_ros_phase1_nonneg_witness :
  3 <> 0 /\ 0 <= 0.9 /\ 0 <= 15 /\
  exists ros : R,
    calc_ros_phase1
      (Py (Fin 20)) (Py (Fin 10)) (Py (Fin 0.9)) (Py (Fin 15)) (Py (Fin 3))
      (Py (Fin 0)) =
    Ok (Np0 (Fin ros)) /\ 0 <= ros.
Proof.
  repeat (split; [lra |]).
  apply (calc_ros_phase1_nonneg 20 10 0.9 15 3 0); lra.
Defined.

(** X6: For a positive wind reduction factor and fuel availability and
    load that are not negative, the Phase-1 rate does not decrease when
    the wind speed increases (across the threshold wind_speed / wrf = 2
    as well). *)
Theorem calc_ros_phase1_monotone_in_wind
  (wind1 wind2 fuel_moisture fuel_availability fuel_load_surface wrf slope : R) :
  0 < wrf -> 0 <= fuel_availability -> 0 <= fuel_load_surface -> wind1 <= wind2 ->
  exists ros1 ros2 : R,
    calc_ros_phase1
      (Py (Fin wind1)) (Py (Fin fuel_moisture)) (Py (Fin fuel_availability))
      (Py (Fin fuel_load_surface)) (Py (Fin wrf)) (Py (Fin slope)) =
    Ok (Np0 (Fin ros1)) /\
    calc_ros_phase1
      (Py (Fin wind2)) (Py (Fin fuel_moisture)) (Py (Fin fuel_availability))
      (Py (Fin fuel_load_surface)) (Py (Fin wrf)) (Py (Fin slope)) =
    Ok (Np0 (Fin ros2)) /\
    ros1 <= ros2.
Proof.
  intros Hw Ha Hf H.
  rewrite !calc_ros_phase1_real by lra.
  eexists; eexists; split; [reflexivity |]; split; [reflexivity |].
  assert (Hu : wind1 / wrf <= wind2 / wrf).
  { unfold Rdiv. apply Rmult_le_compat_r; [| assumption].
    left. apply Rinv_0_lt_compat. assumption. }
  pose proof (phase1_base_monotone _ _ fuel_load_surface Hu).
  pose proof (moisture_effect_bounds fuel_moisture).
  pose proof (slope_effect_gt_half slope).
  assert (0 <= moisture_effect fuel_moisture * fuel_availability) by nra.
  repeat apply Rmult_le_compat_r; try lra.
Qed.

Lemma calc_ros_phase1_monotone_in_wind_witness :
  0 < 3 /\ 0 <= 0.9 /\ 0 <= 15 /\ 5 <= 20 /\
  exists ros1 ros2 : R,
    calc_ros_phase1
      (Py (Fin 5)) (Py (Fin 10)) (Py (Fin 0.9)) (Py (Fin 15)) (Py (Fin 3))
      (Py (Fin 0)) = Ok (Np0 (Fin ros1)) /\
    calc_ros_phase1
      (Py (Fin 20)) (Py (Fin 10)) (Py (Fin 0.9)) (Py (Fin 15)) (Py (Fin 3))
      (Py (Fin 0)) = Ok (Np0 (Fin ros2)) /\
    ros1 <= ros2.
Proof.
  repeat (split; [lra |]).
  apply (calc_ros_phase1_monotone_in_wind 5 20 10 0.9 15 3 0); lra.
Defined.

Lemma calculate_ros_phase2_real
  (wind_speed fuel_moisture fuel_availability fuel_load_surface wrf
     height_understorey slope : R) :
  wrf <> 0 -> 0 <= wind_speed / wrf -> 0 <= fuel_load_surface ->
  0 <= height_understorey ->
  calculate_ros_phase2
    (Py (Fin wind_speed)) (Py (Fin fuel_moisture)) (Py (Fin fuel_availability))
    (Py (Fin fuel_load_surface)) (Py (Fin wrf)) (Py (Fin height_understorey))
    (Py (Fin slope)) =
  Ok (Np0 (Fin (phase2_base (wind_speed / wrf) fuel_load_surface height_understorey *
                (moisture_effect fuel_moisture * fuel_availability) *
                slope_effect slope * 1000))).
Proof.
  intros Hw Hu Hf Hh. unfold calculate_ros_phase2, phase2_base.
  rewrite calc_moisture_function_real, calc_slope_effect_real.
  py_eval.
  rewrite (fpow_nonneg_base (wind_speed / wrf) 0.8257 0) by lra.
  rewrite (fpow_nonneg_base (fuel_load_surface / 10) 0.4672 0) by lra.
  rewrite (fpow_nonneg_base height_understorey 0.495 0) by lra.
  py_eval. reflexivity.
Qed.

Lemma phase2_base_nonneg (u fuel_load_surface height_understorey : R) :
  0 <= phase2_base u fuel_load_surface height_understorey.
Proof.
  unfold phase2_base.
  pose proof (power_nonneg u 0.8257).
  pose proof (power_nonneg (fuel_load_surface / 10) 0.4672).
  pose proof (power_nonneg height_understorey 0.495).
  nonneg_product.
Qed.

Lemma phase2_rate_nonneg
  (u fuel_moisture fuel_availability fuel_load_surface height_understorey slope : R) :
  0 <= fuel_availability ->
  0 <= phase2_base u fuel_load_surface height_understorey *
       (moisture_effect fuel_moisture * fuel_availability) *
       slope_effect slope * 1000.
Proof.
  intros Ha.
  pose proof (phase2_base_nonneg u fuel_load_surface height_understorey).
  pose proof (moisture_effect_bounds fuel_moisture).
  pose proof (slope_effect_gt_half slope).
  nonneg_product.
Qed.

Lemma Rdiv_nonneg (a b : R) : 0 <= a -> 0 < b -> 0 <= a / b.
Proof.
  intros Ha Hb. unfold Rdiv. apply Rmult_le_pos; [assumption |].
  left. apply Rinv_0_lt_compat. assumption.
Qed.

Lemma calculate_ros_phase2_nan
  (wind_speed fuel_moisture fuel_availability fuel_load_surface wrf
     height_understorey slope : R) :
  wrf <> 0 -> height_understorey < 0 ->
  calculate_ros_phase2
    (Py (Fin wind_speed)) (Py (Fin fuel_moisture)) (Py (Fin fuel_availability))
    (Py (Fin fuel_load_surface)) (Py (Fin wrf)) (Py (Fin height_understorey))
    (Py (Fin slope)) =
  Ok (Np0 NaN).
Proof.
  intros Hw Hh. unfold calculate_ros_phase2.
  rewrite calc_moisture_function_real, calc_slope_effect_real.
  cbn -[fpow fmul]. rewrite !(Reqb_false wrf 0) by assumption.
  cbn -[fpow fmul]. rewrite (Reqb_false 10 0) by lra.
  cbn -[fpow fmul].
  rewrite (fpow_neg_base height_understorey 0.495 0) by lra.
  rewrite fmul_NaN_r. reflexivity.
Qed.

(** X7: For a positive wind reduction factor and wind speed, fuel
    availability, surface fuel load and understorey height that are not
    negative, the Phase-2 rate is a real that is not negative. *)
Theorem calculate_ros_phase2_nonneg
  (wind_speed fuel_moisture fuel_availability fuel_load_surface wrf
     height_understorey slope : R) :
  0 < wrf -> 0 <= wind_speed -> 0 <= fuel_availability ->
  0 <= fuel_load_surface -> 0 <= height_understorey ->
  exists ros : R,
    calculate_ros_phase2
      (Py (Fin wind_speed)) (Py (Fin fuel_moisture)) (Py (Fin fuel_availability))
      (Py (Fin fuel_load_surface)) (Py (Fin wrf)) (Py (Fin height_understorey))
      (Py (Fin slope)) =
    Ok (Np0 (Fin ros)) /\ 0 <= ros.
Proof.
  intros Hw Hs Ha Hf Hh.
  pose proof (Rdiv_nonneg wind_speed wrf Hs Hw).
  rewrite calculate_ros_phase2_real by lra.
  eexists; split; [reflexivity |].
  apply phase2_rate_nonneg; assumption.
Qed.

Lemma calculate_ros_phase2_nonneg_witness :
  0 < 3 /\ 0 <= 20 /\ 0 <= 0.9 /\ 0 <= 15 /\ 0 <= 1.04 /\
  exists ros : R,
    calculate_ros_phase2
      (Py (Fin 20)) (Py (Fin 10)) (Py (Fin 0.9)) (Py (Fin 15)) (Py (Fin 3))
      (Py (Fin 1.04)) (Py (Fin 0)) =
    Ok (Np0 (Fin ros)) /\ 0 <= ros.
Proof.
  repeat (split; [lra |]).
  apply (calculate_ros_phase2_nonneg 20 10 0.9 15 3 1.04 0); lra.
Defined.

(** X8: With otherwise valid inputs, a zero wind speed, a zero surface
    fuel load or a zero understorey height makes the Phase-2 rate
    exactly 0: the power of 0 is 0 and nothing is raised. *)
Theorem calculate_ros_phase2_zero_factor
  (wind_speed fuel_moisture fuel_availability fuel_load_surface wrf
     height_understorey slope : R) :
  wrf <> 0 -> 0 <= wind_speed / wrf -> 0 <= fuel_load_surface ->
  0 <= height_understorey ->
  wind_speed = 0 \/ fuel_load_surface = 0 \/ height_understorey = 0 ->
  calculate_ros_phase2
    (Py (Fin wind_speed)) (Py (Fin fuel_moisture)) (Py (Fin fuel_availability))
    (Py (Fin fuel_load_surface)) (Py (Fin wrf)) (Py (Fin height_understorey))
    (Py (Fin slope)) =
  Ok (Np0 (Fin 0)).
Proof.
  intros Hw Hu Hf Hh Hz.
  rewrite calculate_ros_phase2_real by assumption.
  do 3 f_equal. unfold phase2_base.
  destruct Hz as [-> | [-> | ->]].
  - replace (0 / wrf) with 0 by (unfold Rdiv; ring). rewrite power_zero. ring.
  - replace (0 / 10) with 0 by lra. rewrite power_zero. ring.
  - rewrite power_zero. ring.
Qed.

Lemma calculate_ros_phase2_zero_factor_witness :
  3 <> 0 /\ 0 <= 0 / 3 /\ 0 <= 15 /\ 0 <= 1.04 /\
  calculate_ros_phase2
    (Py (Fin 0)) (Py (Fin 10)) (Py (Fin 0.9)) (Py (Fin 15)) (Py (Fin 3))
    (Py (Fin 1.04)) (Py (Fin 0)) =
  Ok (Np0 (Fin 0)).
Proof.
  repeat (split; [lra |]).
  apply (calculate_ros_phase2_zero_factor 0 10 0.9 15 3 1.04 0); lra.
Defined.

Lemma calc_ros_phase3_real (wind_speed fuel_moisture fuel_availability : R) :
  0 <= wind_speed ->
  calc_ros_phase3
    (Py (Fin wind_speed)) (Py (Fin fuel_moisture)) (Py (Fin fuel_availability)) =
  Ok (Np0 (Fin (phase3_base wind_speed *
                (moisture_effect fuel_moisture * fuel_availability) * 1000))).
Proof.
  intros Hs. unfold calc_ros_phase3, phase3_base.
  rewrite calc_moisture_function_real.
  py_eval.
  rewrite (fpow_nonneg_base wind_speed 1.19128 1) by lra.
  py_eval. reflexivity.
Qed.

(** X9: For a wind speed and a fuel availability that are not negative
    the Phase-3 rate is a real that is not negative, and it is 0 at zero
    wind. *)
Theorem calc_ros_phase3_nonneg (wind_speed fuel_moisture fuel_availability : R) :
  0 <= wind_speed -> 0 <= fuel_availability ->
  exists ros : R,
    calc_ros_phase3
      (Py (Fin wind_speed)) (Py (Fin fuel_moisture)) (Py (Fin fuel_availability)) =
    Ok (Np0 (Fin ros)) /\ 0 <= ros /\ (wind_speed = 0 -> ros = 0).
Proof.
  intros Hs Ha. rewrite calc_ros_phase3_real by assumption.
  eexists; split; [reflexivity |].
  pose proof (power_nonneg wind_speed 1.19128).
  pose proof (moisture_effect_bounds fuel_moisture).
  split.
  - unfold phase3_base. nonneg_product.
  - intros ->. unfold phase3_base. rewrite power_zero. ring.
Qed.

Lemma calc_ros_phase3_nonneg_witness :
  0 <= 20 /\ 0 <= 0.9 /\
  exists ros : R,
    calc_ros_phase3 (Py (Fin 20)) (Py (Fin 10)) (Py (Fin 0.9)) =
    Ok (Np0 (Fin ros)) /\ 0 <= ros /\ (20 = 0 -> ros = 0).
Proof.
  repeat (split; [lra |]).
  apply (calc_ros_phase3_nonneg 20 10 0.9); lra.
Defined.

(** X10: Above 24 % fuel moisture the three rate functions all return
    exactly 0 (for a positive wrf and wind speed, fuel load and
    understorey height that are not negative), whatever the fuel
    availability and slope. *)
Theorem rates_extinct_above_24
  (wind_speed fuel_moisture fuel_availability fuel_load_surface wrf
     height_understorey slope : R) :
  24 < fuel_moisture ->
  0 < wrf -> 0 <= wind_speed -> 0 <= fuel_load_surface -> 0 <= height_understorey ->
  calc_ros_phase1
    (Py (Fin wind_speed)) (Py (Fin fuel_moisture)) (Py (Fin fuel_availability))
    (Py (Fin fuel_load_surface)) (Py (Fin wrf)) (Py (Fin slope)) = Ok (Np0 (Fin 0)) /\
  calculate_ros_phase2
    (Py (Fin wind_speed)) (Py (Fin fuel_moisture)) (Py (Fin fuel_availability))
    (Py (Fin fuel_load_surface)) (Py (Fin wrf)) (Py (Fin height_understorey))
    (Py (Fin slope)) = Ok (Np0 (Fin 0)) /\
  calc_ros_phase3
    (Py (Fin wind_speed)) (Py (Fin fuel_moisture)) (Py (Fin fuel_availability)) =
  Ok (Np0 (Fin 0)).
Proof.
  intros Hm Hw Hs Hf Hh.
  pose proof (Rdiv_nonneg wind_speed wrf Hs Hw).
  rewrite calc_ros_phase1_real, calculate_ros_phase2_real, calc_ros_phase3_real
    by lra.
  rewrite (moisture_effect_extinct fuel_moisture) by assumption.
  repeat split; do 3 f_equal; ring.
Qed.

Lemma rates_extinct_above_24_witness :
  24 < 30 /\ 0 < 3 /\ 0 <= 20 /\ 0 <= 15 /\ 0 <= 1.04 /\
  calc_ros_phase1
    (Py (Fin 20)) (Py (Fin 30)) (Py (Fin 0.9)) (Py (Fin 15)) (Py (Fin 3))
    (Py (Fin 0)) = Ok (Np0 (Fin 0)) /\
  calculate_ros_phase2
    (Py (Fin 20)) (Py (Fin 30)) (Py (Fin 0.9)) (Py (Fin 15)) (Py (Fin 3))
    (Py (Fin 1.04)) (Py (Fin 0)) = Ok (Np0 (Fin 0)) /\
  calc_ros_phase3 (Py (Fin 20)) (Py (Fin 30)) (Py (Fin 0.9)) = Ok (Np0 (Fin 0)).
Proof.
  repeat (split; [lra |]).
  apply (rates_extinct_above_24 20 30 0.9 15 3 1.04 0); lra.
Defined.

(** ** The two transition probabilities *)

Lemma logistic_bounds (g : R) : 0 < logistic g < 1.
Proof.
  unfold logistic. pose proof (exp_pos (- g)) as E.
  split.
  - apply Rdiv_lt_0_compat; lra.
  - apply Rmult_lt_reg_r with (1 + exp (- g)); [lra |].
    unfold Rdiv. rewrite Rmult_assoc, Rinv_l by lra. lra.
Qed.

Lemma logistic_monotone (g1 g2 : R) : g1 <= g2 -> logistic g1 <= logistic g2.
Proof.
  intros H. unfold logistic.
  pose proof (exp_pos (- g1)). pose proof (exp_pos (- g2)).
  assert (exp (- g2) <= exp (- g1)).
  { destruct H as [H | ->]; [| lra]. left. apply exp_increasing. lra. }
  unfold Rdiv. apply Rmult_le_compat_l; [lra |].
  apply Rinv_le_contravar; lra.
Qed.

(** X11: For wrf other than 0 the Phase-2 probability is a real in [0,
    1], both bounds included. *)
Theorem calc_probability_phase2_range
  (wind_speed fuel_moisture fuel_availability fuel_load_surface wrf : R) :
  wrf <> 0 ->
  exists p : R,
    calc_probability_phase2
      (Py (Fin wind_speed)) (Py (Fin fuel_moisture)) (Py (Fin fuel_availability))
      (Py (Fin fuel_load_surface)) (Py (Fin wrf)) = Ok (Np0 (Fin p)) /\
    0 <= p <= 1.
Proof.
  intros Hw. rewrite calc_probability_phase2_real by assumption.
  eexists; split; [reflexivity |].
  pose proof (logistic_bounds (phase2_logit wind_speed fuel_moisture
                                 fuel_availability fuel_load_surface wrf)) as B.
  destruct (Rltb fuel_load_surface 1); lra.
Qed.

Lemma calc_probability_phase2_range_witness :
  3 <> 0 /\
  exists p : R,
    calc_probability_phase2
      (Py (Fin 20)) (Py (Fin 10)) (Py (Fin 0.9)) (Py (Fin 15)) (Py (Fin 3)) =
    Ok (Np0 (Fin p)) /\
    0 <= p <= 1.
Proof.
  split; [lra |]. apply (calc_probability_phase2_range 20 10 0.9 15 3). lra.
Defined.

(** The third probability reads the Phase-2 rate as any float. *)
Lemma calc_probability_phase3_scalar
  (wind_speed fuel_moisture fuel_availability : R) (ros_phase2 : float) :
  calc_probability_phase3
    (Py (Fin wind_speed)) (Py (Fin fuel_moisture)) (Py (Fin fuel_availability))
    (Py ros_phase2) =
  Ok (Np0 (Fin (if flt ros_phase2 (Fin 300) then 0
                else logistic (phase3_logit wind_speed fuel_moisture
                                 fuel_availability)))).
Proof.
  unfold calc_probability_phase3.
  rewrite calc_moisture_function_real.
  cbn -[flt].
  match goal with
  | |- context [Reqb (1 + exp (- ?g)) 0] =>
      pose proof (logistic_denominator_pos g)
  end.
  decide_tests.
  destruct (flt ros_phase2 (Fin 300)); reflexivity.
Qed.

(** X12: The Phase-3 probability is a real in [0, 1], both bounds
    included: exactly 0 when ros_phase2 < 300 and the logistic of g_x
    from 300 on. *)
Theorem calc_probability_phase3_threshold
  (wind_speed fuel_moisture fuel_availability ros_phase2 : R) :
  exists p : R,
    calc_probability_phase3
      (Py (Fin wind_speed)) (Py (Fin fuel_moisture)) (Py (Fin fuel_availability))
      (Py (Fin ros_phase2)) = Ok (Np0 (Fin p)) /\
    0 <= p <= 1 /\
    (ros_phase2 < 300 -> p = 0) /\
    (300 <= ros_phase2 ->
     p = logistic (phase3_logit wind_speed fuel_moisture fuel_availability)).
Proof.
  rewrite calc_probability_phase3_scalar. cbn [flt].
  eexists; split; [reflexivity |].
  pose proof (logistic_bounds (phase3_logit wind_speed fuel_moisture
                                 fuel_availability)).
  destruct (Rlt_dec ros_phase2 300) as [H1 | H1].
  - rewrite Rltb_true by assumption. repeat split; intros; lra.
  - rewrite Rltb_false by lra. repeat split; intros; lra.
Qed.

(** ** How the functions compose *)

(** X13: Feeding calc_height_understorey into calculate_ros_phase2
    (valid other inputs, fuel hazard score and elevated height not
    negative): the rate is a real that is not negative when
    0.06*FHS_elevated + 0.48*height_elevated is at least 0.11, and nan
    when it is at most 0.09.  (Between the two, next to the boundary 0.1,
    the sign of the height is decided by rounding.) *)
Theorem understorey_height_into_phase2
  (wind_speed fuel_moisture fuel_availability fuel_load_surface wrf slope
     FHS_elevated height_elevated : R) :
  0 < wrf -> 0 <= wind_speed -> 0 <= fuel_availability -> 0 <= fuel_load_surface ->
  0 <= FHS_elevated -> 0 <= height_elevated ->
  (0.11 <= 0.06 * FHS_elevated + 0.48 * height_elevated ->
   exists ros : R,
     assign (calc_height_understorey (Py (Fin FHS_elevated)) (Py (Fin height_elevated)))
       (fun height_understorey =>
          calculate_ros_phase2
            (Py (Fin wind_speed)) (Py (Fin fuel_moisture)) (Py (Fin fuel_availability))
            (Py (Fin fuel_load_surface)) (Py (Fin wrf)) height_understorey
            (Py (Fin slope))) =
     Ok (Np0 (Fin ros)) /\ 0 <= ros) /\
  (0.06 * FHS_elevated + 0.48 * height_elevated <= 0.09 ->
   assign (calc_height_understorey (Py (Fin FHS_elevated)) (Py (Fin height_elevated)))
     (fun height_understorey =>
        calculate_ros_phase2
          (Py (Fin wind_speed)) (Py (Fin fuel_moisture)) (Py (Fin fuel_availability))
          (Py (Fin fuel_load_surface)) (Py (Fin wrf)) height_understorey
          (Py (Fin slope))) =
   Ok (Np0 NaN)).
Proof.
  intros Hw Hs Ha Hf _ _.
  rewrite calc_height_understorey_real. cbn [assign bind].
  pose proof (Rdiv_nonneg wind_speed wrf Hs Hw).
  split; intros Hh.
  - rewrite calculate_ros_phase2_real by lra.
    eexists; split; [reflexivity |].
    apply phase2_rate_nonneg; first [assumption | lra].
  - apply calculate_ros_phase2_nan; lra.
Qed.

Lemma understorey_height_into_phase2_witness :
  0 < 3 /\ 0 <= 20 /\ 0 <= 0.9 /\ 0 <= 15 /\ 0 <= 1 /\ 0 <= 0 /\
  assign (calc_height_understorey (Py (Fin 1)) (Py (Fin 0)))
    (fun height_understorey =>
       calculate_ros_phase2
         (Py (Fin 20)) (Py (Fin 10)) (Py (Fin 0.9))
         (Py (Fin 15)) (Py (Fin 3)) height_understorey
         (Py (Fin 0))) =
  Ok (Np0 NaN).
Proof.
  repeat (split; [lra |]).
  apply (understorey_height_into_phase2 20 10 0.9 15 3 0 1 0); lra.
Defined.

(** X14: A Phase-2 rate computed on a negative understorey height is
    nan, and calc_probability_phase3 called with it returns the logistic
    value rather than 0 or nan: the test nan < 300 is false. *)
Theorem nan_rate_passes_phase3_threshold
  (wind_speed fuel_moisture fuel_availability fuel_load_surface wrf
     height_understorey slope : R) :
  wrf <> 0 -> height_understorey < 0 ->
  assign (calculate_ros_phase2
            (Py (Fin wind_speed)) (Py (Fin fuel_moisture)) (Py (Fin fuel_availability))
            (Py (Fin fuel_load_surface)) (Py (Fin wrf)) (Py (Fin height_understorey))
            (Py (Fin slope)))
    (fun ros_phase2 =>
       calc_probability_phase3
         (Py (Fin wind_speed)) (Py (Fin fuel_moisture)) (Py (Fin fuel_availability))
         ros_phase2) =
  Ok (Np0 (Fin (logistic (phase3_logit wind_speed fuel_moisture fuel_availability)))).
Proof.
  intros Hw Hh. rewrite calculate_ros_phase2_nan by assumption.
  cbn [assign bind].
  unfold calc_probability_phase3.
  rewrite calc_moisture_function_real.
  cbn.
  match goal with
  | |- context [Reqb (1 + exp (- ?g)) 0] =>
      pose proof (logistic_denominator_pos g)
  end.
  decide_tests. reflexivity.
Qed.

Lemma nan_rate_passes_phase3_threshold_witness :
  3 <> 0 /\ -0.1 < 0 /\
  assign (calculate_ros_phase2
            (Py (Fin 20)) (Py (Fin 10)) (Py (Fin 0.9))
            (Py (Fin 15)) (Py (Fin 3)) (Py (Fin (-0.1)))
            (Py (Fin 0)))
    (fun ros_phase2 =>
       calc_probability_phase3
         (Py (Fin 20)) (Py (Fin 10)) (Py (Fin 0.9)) ros_phase2) =
  Ok (Np0 (Fin (logistic (phase3_logit 20 10 0.9)))).
Proof.
  repeat (split; [lra |]).
  apply (nan_rate_passes_phase3_threshold 20 10 0.9 15 3 (-0.1) 0); lra.
Defined.

(** ** More on the blender *)

(** X15: If the Phase-2 rate is nan, calc_rate_of_spread returns nan on
    both branches, also when the Phase-2 probability is 0 (nan * 0 is
    nan). *)
Theorem blend_of_nan_rate (ros1 ros3 p2 p3 : R) :
  calc_rate_of_spread
    (Np0 (Fin ros1)) (Np0 NaN) (Np0 (Fin ros3)) (Np0 (Fin p2)) (Np0 (Fin p3)) =
  Ok (Np0 NaN).
Proof.
  unfold calc_rate_of_spread. cbn.
  destruct (Rltb p2 0.5); reflexivity.
Qed.

(** X16: For rates that are not negative and probabilities in [0, 1]
    the blended rate is not negative, in both branches. *)
Theorem calc_rate_of_spread_nonneg (ros1 ros2 ros3 p2 p3 : R) :
  0 <= ros1 -> 0 <= ros2 -> 0 <= ros3 -> 0 <= p2 <= 1 -> 0 <= p3 <= 1 ->
  exists ros : R,
    calc_rate_of_spread
      (Py (Fin ros1)) (Py (Fin ros2)) (Py (Fin ros3)) (Py (Fin p2)) (Py (Fin p3)) =
    Ok (Np0 (Fin ros)) /\
    0 <= ros.
Proof.
  intros H1 H2 H3 P2 P3. rewrite calc_rate_of_spread_real.
  eexists; split; [reflexivity |].
  unfold blend_two_term, blend_three_term.
  assert (0 <= ros1 * (1 - p2)) by nra.
  assert (0 <= ros2 * p2) by nra.
  assert (0 <= ros2 * p2 * (1 - p3)) by nra.
  assert (0 <= ros3 * p3) by nra.
  destruct (Rltb p2 0.5); lra.
Qed.

Lemma calc_rate_of_spread_nonneg_witness :
  0 <= 100 /\ 0 <= 400 /\ 0 <= 900 /\ 0 <= 0.25 <= 1 /\ 0 <= 1 <= 1 /\
  exists ros : R,
    calc_rate_of_spread
      (Py (Fin 100)) (Py (Fin 400)) (Py (Fin 900)) (Py (Fin 0.25)) (Py (Fin 1)) =
    Ok (Np0 (Fin ros)) /\
    0 <= ros.
Proof.
  repeat (split; [lra |]).
  apply (calc_rate_of_spread_nonneg 100 400 900 0.25 1); lra.
Defined.

(** X17: From a Phase-2 probability of 0.5 on, the weights of the three
    rates add up to 1 + p3*(1 - p2): three equal rates r blend to r*(1 +
    p3*(1 - p2)), not to r. *)
Theorem blend_three_term_equal_rates (ros p2 p3 : R) :
  0.5 <= p2 ->
  calc_rate_of_spread
    (Py (Fin ros)) (Py (Fin ros)) (Py (Fin ros)) (Py (Fin p2)) (Py (Fin p3)) =
  Ok (Np0 (Fin (ros * (1 + p3 * (1 - p2))))).
Proof.
  intros H. rewrite calc_rate_of_spread_real, Rltb_false by lra.
  do 3 f_equal. unfold blend_three_term. ring.
Qed.

Lemma blend_three_term_equal_rates_witness :
  0.5 <= 0.5 /\
  calc_rate_of_spread
    (Py (Fin 100)) (Py (Fin 100)) (Py (Fin 100)) (Py (Fin 0.5)) (Py (Fin 1)) =
  Ok (Np0 (Fin (100 * (1 + 1 * (1 - 0.5))))).
Proof.
  split; [lra |]. apply (blend_three_term_equal_rates 100 0.5 1). lra.
Defined.

(** ** More on fuel availability *)

Lemma availability_bounds (d : R) : 0 < availability d < 1.008.
Proof.
  unfold availability. pose proof (exp_pos (-0.9306 * d)) as E.
  split.
  - apply Rdiv_lt_0_compat; lra.
  - apply Rmult_lt_reg_r with (1 + 104.9 * exp (-0.9306 * d)); [lra |].
    unfold Rdiv. rewrite Rmult_assoc, Rinv_l by lra. nra.
Qed.

Lemma wet_drought_factor_bounds (DF DI wrf : R) :
  0 <= wet_drought_factor DF DI wrf <= 10.
Proof.
  unfold wet_drought_factor. split.
  - apply Rmin_glb; [apply Rmax_r | lra].
  - apply Rmin_r.
Qed.

Lemma wet_drought_factor_monotone (DF1 DF2 DI wrf : R) :
  DF1 <= DF2 -> wet_drought_factor DF1 DI wrf <= wet_drought_factor DF2 DI wrf.
Proof.
  intros H. unfold wet_drought_factor.
  pose proof (Rmax_r (wet_C1 DI wrf + 0) 0) as M.
  set (m := Rmax (wet_C1 DI wrf + 0) 0) in *.
  apply Rle_min_compat_r. apply Rle_max_compat_r. nra.
Qed.

(** X18: On real scalars, in both branches, the fuel availability is at
    least 0 and at most 1.008; in the wet-forest branch it is the
    availability at a drought factor clipped to [0, 10]. *)
Theorem calc_fuel_availability_range (DF DI wrf : R) (wet_forest : bool) :
  exists a : R,
    calc_fuel_availability (Py (Fin DF)) (Py (Fin DI)) (Py (Fin wrf)) wet_forest =
      Ok (Np0 (Fin a)) /\
    0 <= a <= 1.008 /\
    (wet_forest = true -> exists d : R, 0 <= d <= 10 /\ a = availability d).
Proof.
  destruct wet_forest.
  - rewrite calc_fuel_availability_wet.
    eexists; split; [reflexivity |]. split.
    + pose proof (availability_bounds (wet_drought_factor DF DI wrf)). lra.
    + intros _. exists (wet_drought_factor DF DI wrf).
      split; [apply wet_drought_factor_bounds | reflexivity].
  - rewrite calc_fuel_availability_dry.
    eexists; split; [reflexivity |]. split.
    + pose proof (availability_bounds DF). lra.
    + discriminate.
Qed.

(** X19: In the wet-forest branch too, the fuel availability does not
    decrease when the drought factor increases (scalar drought index and
    wrf fixed). *)
Theorem calc_fuel_availability_wet_monotone (DF1 DF2 DI wrf : R) :
  DF1 <= DF2 ->
  exists a1 a2 : R,
    calc_fuel_availability (Py (Fin DF1)) (Py (Fin DI)) (Py (Fin wrf)) true =
      Ok (Np0 (Fin a1)) /\
    calc_fuel_availability (Py (Fin DF2)) (Py (Fin DI)) (Py (Fin wrf)) true =
      Ok (Np0 (Fin a2)) /\
    a1 <= a2.
Proof.
  intros H. rewrite !calc_fuel_availability_wet.
  eexists; eexists; split; [reflexivity |]; split; [reflexivity |].
  apply availability_monotone. apply wet_drought_factor_monotone. assumption.
Qed.

Lemma calc_fuel_availability_wet_monotone_witness :
  2 <= 8 /\
  exists a1 a2 : R,
    calc_fuel_availability (Py (Fin 2)) (Py (Fin 100)) (Py (Fin 3)) true =
      Ok (Np0 (Fin a1)) /\
    calc_fuel_availability (Py (Fin 8)) (Py (Fin 100)) (Py (Fin 3)) true =
      Ok (Np0 (Fin a2)) /\
    a1 <= a2.
Proof.
  split; [lra |]. apply (calc_fuel_availability_wet_monotone 2 8 100 3). lra.
Defined.

(** X20: In the wet-forest branch, for a wrf of magnitude at most 100
    and a drought index of magnitude at most 10000, when the coefficient
    C1 is negative (at most -0.000001) the floor max(C1 + C2, 0) removes
    the drought factor from the result: the availability is 1.008/105.9
    for every drought factor. *)
Theorem calc_fuel_availability_wet_floor (DF DI wrf : R) :
  Rabs wrf <= 100 -> Rabs DI <= 10000 -> wet_C1 DI wrf <= -0.000001 ->
  calc_fuel_availability (Py (Fin DF)) (Py (Fin DI)) (Py (Fin wrf)) true =
  Ok (Np0 (Fin (1.008 / 105.9))).
Proof.
  intros _ _ H. rewrite calc_fuel_availability_wet.
  do 3 f_equal. unfold wet_drought_factor.
  rewrite (Rmax_right (wet_C1 DI wrf + 0) 0) by lra.
  replace (DF * 0 / 10) with 0 by lra.
  rewrite (Rmax_left 0 0), (Rmin_left 0 10) by lra.
  unfold availability. rewrite Rmult_0_r, exp_0. lra.
Qed.

Lemma calc_fuel_availability_wet_floor_witness :
  Rabs 5 <= 100 /\ Rabs 10 <= 10000 /\ wet_C1 10 5 <= -0.000001 /\
  calc_fuel_availability (Py (Fin 8)) (Py (Fin 10)) (Py (Fin 5)) true =
  Ok (Np0 (Fin (1.008 / 105.9))).
Proof.
  assert (A5 : Rabs 5 <= 100) by (rewrite Rabs_right; lra).
  assert (A10 : Rabs 10 <= 10000) by (rewrite Rabs_right; lra).
  assert (C : wet_C1 10 5 <= -0.000001) by (unfold wet_C1; lra).
  repeat (split; [assumption |]).
  apply (calc_fuel_availability_wet_floor 8 10 5); assumption.
Defined.

(** ** Arrays: position by position as the scalar calls *)

Lemma Forall2_map_r {A B} (P : A -> B -> Prop) (f : A -> B) (l : list A) :
  (forall x, P x (f x)) -> Forall2 P l (map f l).
Proof. intros H. induction l; simpl; constructor; auto. Qed.

(** X21: calc_moisture_function on an array of real moistures (the empty
    array included) returns an array that holds, at each position, what
    the scalar call returns on that element. *)
Theorem calc_moisture_function_elementwise (ms : list R) :
  exists ys : list float,
    calc_moisture_function (Np1 (map Fin ms)) = Ok (Np1 ys) /\
    Forall2 (fun m y => calc_moisture_function (Py (Fin m)) = Ok (Np0 y)) ms ys.
Proof.
  rewrite calc_moisture_function_array.
  eexists; split; [reflexivity |].
  apply Forall2_map_r. intros m. apply calc_moisture_function_real.
Qed.

(** X22: With a scalar drought index and wrf, calc_fuel_availability on
    an array of drought factors returns, at each position, what the
    scalar call returns, in the dry-forest and in the wet-forest branch. *)
Theorem calc_fuel_availability_elementwise
  (DFs : list R) (DI wrf : R) (wet_forest : bool) :
  exists ys : list float,
    calc_fuel_availability (Np1 (map Fin DFs)) (Py (Fin DI)) (Py (Fin wrf)) wet_forest =
      Ok (Np1 ys) /\
    Forall2 (fun DF y =>
               calc_fuel_availability (Py (Fin DF)) (Py (Fin DI)) (Py (Fin wrf))
                 wet_forest = Ok (Np0 y))
      DFs ys.
Proof.
  destruct wet_forest.
  - rewrite calc_fuel_availability_wet_array.
    eexists; split; [reflexivity |].
    apply Forall2_map_r. intros d. apply calc_fuel_availability_wet.
  - rewrite calc_fuel_availability_dry_array.
    eexists; split; [reflexivity |].
    apply Forall2_map_r. intros d. apply calc_fuel_availability_dry.
Qed.

(** X23: calc_rate_of_spread on five columns of one table of
    observations (five arrays of one length) returns an array of that
    length that holds, at each row, what the scalar call returns on that
    row. *)
Theorem calc_rate_of_spread_elementwise {O : Type}
  (ros1 ros2 ros3 p2 p3 : O -> R) (obs : list O) :
  exists ys : list float,
    calc_rate_of_spread
      (Np1 (map (fun o => Fin (ros1 o)) obs)) (Np1 (map (fun o => Fin (ros2 o)) obs))
      (Np1 (map (fun o => Fin (ros3 o)) obs)) (Np1 (map (fun o => Fin (p2 o)) obs))
      (Np1 (map (fun o => Fin (p3 o)) obs)) = Ok (Np1 ys) /\
    length ys = length obs /\
    Forall2 (fun o y =>
               calc_rate_of_spread
                 (Py (Fin (ros1 o))) (Py (Fin (ros2 o))) (Py (Fin (ros3 o)))
                 (Py (Fin (p2 o))) (Py (Fin (p3 o))) = Ok (Np0 y))
      obs ys.
Proof.
  rewrite calc_rate_of_spread_columns.
  eexists; split; [reflexivity |]. split; [apply length_map |].
  apply Forall2_map_r. intros o. apply calc_rate_of_spread_real.
Qed.

(** ** The calls of the driver: weather columns, scalar fuel constants *)

Lemma calc_moisture_function_column {O : Type} (fm : O -> R) (obs : list O) :
  calc_moisture_function (Np1 (map (fun o => Fin (fm o)) obs)) =
  Ok (Np1 (map (fun o => Fin (moisture_effect (fm o))) obs)).
Proof.
  rewrite <- (map_map fm Fin), calc_moisture_function_array, map_map.
  reflexivity.
Qed.

Lemma broadcast_column_np0 {A B C D} (f : B -> C -> D) (g : A -> B) (y : C)
  (l : list A) :
  broadcast f (Np1 (map g l)) (Np0 y) = Ok (Np1 (map (fun x => f (g x) y) l)).
Proof. cbn. rewrite map_map. reflexivity. Qed.

Lemma broadcast_np0_column {A B C D} (f : B -> C -> D) (x : B) (h : A -> C)
  (l : list A) :
  broadcast f (Np0 x) (Np1 (map h l)) = Ok (Np1 (map (fun a => f x (h a)) l)).
Proof. cbn. rewrite map_map. reflexivity. Qed.

Lemma broadcast_py_py {B C D} (f : B -> C -> D) (x : B) (y : C) :
  broadcast f (Py x) (Py y) = Ok (Np0 (f x y)).
Proof. reflexivity. Qed.

Lemma broadcast_py_np0 {B C D} (f : B -> C -> D) (x : B) (y : C) :
  broadcast f (Py x) (Np0 y) = Ok (Np0 (f x y)).
Proof. reflexivity. Qed.

Lemma broadcast_np0_py {B C D} (f : B -> C -> D) (x : B) (y : C) :
  broadcast f (Np0 x) (Py y) = Ok (Np0 (f x y)).
Proof. reflexivity. Qed.

Lemma broadcast_np0_np0 {B C D} (f : B -> C -> D) (x : B) (y : C) :
  broadcast f (Np0 x) (Np0 y) = Ok (Np0 (f x y)).
Proof. reflexivity. Qed.

Ltac py_eval_driver :=
  repeat (progress
            (cbn -[fpow broadcast fadd fsub fmul fdiv fexp fneg fle fgt flt];
             decide_tests;
             rewrite ?broadcast_columns, ?broadcast_column_py,
               ?broadcast_py_column, ?broadcast_column_np0,
               ?broadcast_np0_column, ?broadcast_py_py, ?broadcast_py_np0,
               ?broadcast_np0_py, ?broadcast_np0_np0, ?map_map)).

(** Evaluate the floats of one row. *)
Ltac row_eval := repeat (progress (cbn -[fpow]; unfold fgt; decide_tests)).

Lemma calc_ros_phase1_columns {O : Type} (ws fm fa : O -> R)
  (fuel_load_surface wrf slope : R) (obs : list O) :
  wrf <> 0 -> 0 <= fuel_load_surface ->
  calc_ros_phase1
    (Np1 (map (fun o => Fin (ws o)) obs)) (Np1 (map (fun o => Fin (fm o)) obs))
    (Np1 (map (fun o => Fin (fa o)) obs))
    (Py (Fin fuel_load_surface)) (Py (Fin wrf)) (Py (Fin slope)) =
  Ok (Np1 (map (fun o => Fin (phase1_base (ws o / wrf) fuel_load_surface *
                              (moisture_effect (fm o) * fa o) *
                              slope_effect slope * 1000))
             obs)).
Proof.
  intros Hw Hf. unfold calc_ros_phase1, np_where.
  rewrite calc_moisture_function_column, calc_slope_effect_real.
  py_eval_driver.
  do 2 f_equal. apply map_ext. intros o.
  unfold phase1_base.
  destruct (Rle_dec (ws o / wrf) 2) as [Hu | Hu].
  - row_eval. reflexivity.
  - row_eval.
    rewrite (fpow_nonneg_base (fuel_load_surface / 10) 0.79928 0) by lra.
    rewrite (fpow_pos_base (ws o / wrf - 1)) by lra.
    row_eval. reflexivity.
Qed.

Lemma calculate_ros_phase2_columns {O : Type} (ws fm fa : O -> R)
  (fuel_load_surface wrf height_understorey slope : R) (obs : list O) :
  0 < wrf -> 0 <= fuel_load_surface -> 0 <= height_understorey ->
  Forall (fun o => 0 <= ws o) obs ->
  calculate_ros_phase2
    (Np1 (map (fun o => Fin (ws o)) obs)) (Np1 (map (fun o => Fin (fm o)) obs))
    (Np1 (map (fun o => Fin (fa o)) obs))
    (Py (Fin fuel_load_surface)) (Py (Fin wrf)) (Py (Fin height_understorey))
    (Py (Fin slope)) =
  Ok (Np1 (map (fun o => Fin (phase2_base (ws o / wrf) fuel_load_surface
                                height_understorey *
                              (moisture_effect (fm o) * fa o) *
                              slope_effect slope * 1000))
             obs)).
Proof.
  intros Hw Hf Hh Hs. unfold calculate_ros_phase2.
  rewrite calc_moisture_function_column, calc_slope_effect_real.
  py_eval_driver.
  do 2 f_equal. apply map_ext_in. intros o Ho.
  rewrite Forall_forall in Hs. pose proof (Rdiv_nonneg (ws o) wrf (Hs o Ho) Hw).
  unfold phase2_base. row_eval.
  rewrite (fpow_nonneg_base (ws o / wrf) 0.8257 0) by lra.
  rewrite (fpow_nonneg_base (fuel_load_surface / 10) 0.4672 0) by lra.
  rewrite (fpow_nonneg_base height_understorey 0.495 0) by lra.
  row_eval. reflexivity.
Qed.

Lemma calc_ros_phase3_columns {O : Type} (ws fm fa : O -> R) (obs : list O) :
  Forall (fun o => 0 <= ws o) obs ->
  calc_ros_phase3
    (Np1 (map (fun o => Fin (ws o)) obs)) (Np1 (map (fun o => Fin (fm o)) obs))
    (Np1 (map (fun o => Fin (fa o)) obs)) =
  Ok (Np1 (map (fun o => Fin (phase3_base (ws o) *
                              (moisture_effect (fm o) * fa o) * 1000))
             obs)).
Proof.
  intros Hs. unfold calc_ros_phase3.
  rewrite calc_moisture_function_column.
  py_eval_driver.
  do 2 f_equal. apply map_ext_in. intros o Ho.
  rewrite Forall_forall in Hs. pose proof (Hs o Ho).
  unfold phase3_base.
  rewrite (fpow_nonneg_base (ws o) 1.19128 1) by lra.
  row_eval. reflexivity.
Qed.

Lemma calc_probability_phase2_columns {O : Type} (ws fm fa : O -> R)
  (fuel_load_surface wrf : R) (obs : list O) :
  wrf <> 0 ->
  calc_probability_phase2
    (Np1 (map (fun o => Fin (ws o)) obs)) (Np1 (map (fun o => Fin (fm o)) obs))
    (Np1 (map (fun o => Fin (fa o)) obs))
    (Py (Fin fuel_load_surface)) (Py (Fin wrf)) =
  Ok (Np1 (map (fun o => Fin (if Rltb fuel_load_surface 1 then 0
                              else logistic (phase2_logit (ws o) (fm o) (fa o)
                                               fuel_load_surface wrf)))
             obs)).
Proof.
  intros Hw. unfold calc_probability_phase2, np_where.
  rewrite calc_moisture_function_column.
  py_eval_driver.
  do 2 f_equal. apply map_ext. intros o.
  row_eval.
  match goal with
  | |- context [Reqb (1 + exp (- ?g)) 0] =>
      pose proof (logistic_denominator_pos g)
  end.
  row_eval.
  destruct (Rltb fuel_load_surface 1); reflexivity.
Qed.

Lemma calc_probability_phase3_columns {O : Type} (ws fm fa ros2 : O -> R)
  (obs : list O) :
  calc_probability_phase3
    (Np1 (map (fun o => Fin (ws o)) obs)) (Np1 (map (fun o => Fin (fm o)) obs))
    (Np1 (map (fun o => Fin (fa o)) obs)) (Np1 (map (fun o => Fin (ros2 o)) obs)) =
  Ok (Np1 (map (fun o => Fin (if Rltb (ros2 o) 300 then 0
                              else logistic (phase3_logit (ws o) (fm o) (fa o))))
             obs)).
Proof.
  unfold calc_probability_phase3, np_where.
  rewrite calc_moisture_function_column.
  py_eval_driver.
  do 2 f_equal. apply map_ext. intros o.
  row_eval.
  match goal with
  | |- context [Reqb (1 + exp (- ?g)) 0] =>
      pose proof (logistic_denominator_pos g)
  end.
  row_eval.
  destruct (Rltb (ros2 o) 300); reflexivity.
Qed.

Lemma calc_fuel_availability_dry_column {O : Type} (DF : O -> R) (DI wrf : num)
  (obs : list O) :
  calc_fuel_availability (Np1 (map (fun o => Fin (DF o)) obs)) DI wrf false =
  Ok (Np1 (map (fun o => Fin (availability (DF o))) obs)).
Proof.
  rewrite <- (map_map DF Fin), calc_fuel_availability_dry_array, map_map.
  reflexivity.
Qed.

(** ** The driver *)

Lemma main_ROS_columns {O : Type} (ws fm DF : O -> R) (obs : list O) :
  Forall (fun o => 0 <= ws o) obs ->
  main_ROS (Np1 (map (fun o => Fin (ws o)) obs))
    (Np1 (map (fun o => Fin (fm o)) obs)) (Np1 (map (fun o => Fin (DF o)) obs)) =
  Ok (Np1 (map (fun o => Fin (main_row (ws o) (fm o) (DF o))) obs)).
Proof.
  intros Hs. unfold main_ROS. cbn [assign bind lit].
  rewrite calc_height_understorey_real. cbn [assign bind].
  rewrite calc_fuel_availability_dry_column. cbn [assign bind].
  rewrite calc_ros_phase1_columns by lra. cbn [assign bind].
  rewrite calculate_ros_phase2_columns by (try assumption; lra). cbn [assign bind].
  rewrite calc_ros_phase3_columns by assumption. cbn [assign bind].
  rewrite calc_probability_phase2_columns by lra. cbn [assign bind].
  rewrite calc_probability_phase3_columns. cbn [assign bind].
  rewrite calc_rate_of_spread_columns. reflexivity.
Qed.

Lemma phase3_base_nonneg (wind_speed : R) : 0 <= phase3_base wind_speed.
Proof.
  unfold phase3_base. pose proof (power_nonneg wind_speed 1.19128).
  nonneg_product.
Qed.

Lemma main_row_nonneg (wind_speed fuel_moisture DF : R) :
  0 <= main_row wind_speed fuel_moisture DF.
Proof.
  unfold main_row.
  pose proof (availability_bounds DF) as A.
  pose proof (moisture_effect_bounds fuel_moisture) as M.
  assert (C : 0 <= moisture_effect fuel_moisture * availability DF) by nra.
  pose proof (slope_effect_gt_half 0) as S.
  set (combined := moisture_effect fuel_moisture * availability DF) in *.
  assert (R1 : 0 <= phase1_base (wind_speed / 3) 15 * combined * slope_effect 0 * 1000).
  { pose proof (phase1_base_ge (wind_speed / 3) 15). nonneg_product. }
  assert (R2 : 0 <= phase2_base (wind_speed / 3) 15 (-0.1 + 0.06 * 3 + 0.48 * 2) *
                    combined * slope_effect 0 * 1000).
  { pose proof (phase2_base_nonneg (wind_speed / 3) 15 (-0.1 + 0.06 * 3 + 0.48 * 2)).
    nonneg_product. }
  assert (R3 : 0 <= phase3_base wind_speed * combined * 1000).
  { pose proof (phase3_base_nonneg wind_speed). nonneg_product. }
  set (ros1 := phase1_base _ _ * _ * _ * _) in *.
  set (ros2 := phase2_base _ _ _ * _ * _ * _) in *.
  set (ros3 := phase3_base _ * _ * _) in *.
  rewrite (Rltb_false 15 1) by lra.
  pose proof (logistic_bounds (phase2_logit wind_speed fuel_moisture
                                 (availability DF) 15 3)) as P2.
  pose proof (logistic_bounds (phase3_logit wind_speed fuel_moisture
                                 (availability DF))) as P3.
  set (p2 := logistic (phase2_logit _ _ _ _ _)) in *.
  assert (P3' : 0 <= (if Rltb ros2 300 then 0
                      else logistic (phase3_logit wind_speed fuel_moisture
                                       (availability DF))) < 1)
    by (destruct (Rltb ros2 300); lra).
  set (p3 := if Rltb ros2 300 then 0 else _) in *.
  unfold blend_two_term, blend_three_term.
  destruct (Rltb p2 0.5).
  - assert (0 <= ros1 * (1 - p2)) by nra. assert (0 <= ros2 * p2) by nra. lra.
  - assert (0 <= ros1 * (1 - p2)) by nra. assert (0 <= ros2 * p2) by nra.
    assert (0 <= ros2 * p2 * (1 - p3)) by nra. assert (0 <= ros3 * p3) by nra.
    lra.
Qed.

Lemma main_row_extinct (wind_speed fuel_moisture DF : R) :
  24 < fuel_moisture -> main_row wind_speed fuel_moisture DF = 0.
Proof.
  intros H. unfold main_row.
  rewrite (moisture_effect_extinct fuel_moisture) by assumption.
  unfold blend_two_term, blend_three_term.
  destruct (Rltb _ 0.5); ring.
Qed.

(** X24: The chain of engine calls of the __main__ block (dry forest,
    wrf 3, fuel load 15, slope 0, FHS 3, elevated height 2), on weather
    columns whose wind speeds are not negative, raises nothing and
    returns one rate per record; every rate is a real that is not
    negative, and it is 0 for every record with fuel moisture above 24. *)
Theorem main_ROS_rows {O : Type} (ws fm DF : O -> R) (obs : list O) :
  Forall (fun o => 0 <= ws o) obs ->
  exists ys : list R,
    main_ROS (Np1 (map (fun o => Fin (ws o)) obs))
      (Np1 (map (fun o => Fin (fm o)) obs)) (Np1 (map (fun o => Fin (DF o)) obs)) =
    Ok (Np1 (map Fin ys)) /\
    length ys = length obs /\
    Forall (fun y => 0 <= y) ys /\
    Forall2 (fun o y => 24 < fm o -> y = 0) obs ys.
Proof.
  intros Hs. rewrite main_ROS_columns by assumption.
  exists (map (fun o => main_row (ws o) (fm o) (DF o)) obs).
  rewrite map_map. split; [reflexivity |]. split; [apply length_map |]. split.
  - apply Forall_map. apply Forall_forall. intros o _. apply main_row_nonneg.
  - apply Forall2_map_r. intros o. apply main_row_extinct.
Qed.

Lemma main_ROS_rows_witness :
  Forall (fun o : R * R * R => 0 <= fst (fst o)) [(20, 10, 8); (0, 30, 5)] /\
  exists ys : list R,
    main_ROS
      (Np1 (map (fun o : R * R * R => Fin (fst (fst o))) [(20, 10, 8); (0, 30, 5)]))
      (Np1 (map (fun o : R * R * R => Fin (snd (fst o))) [(20, 10, 8); (0, 30, 5)]))
      (Np1 (map (fun o : R * R * R => Fin (snd o)) [(20, 10, 8); (0, 30, 5)])) =
    Ok (Np1 (map Fin ys)) /\
    length ys = length [(20, 10, 8); (0, 30, 5)] /\
    Forall (fun y => 0 <= y) ys /\
    Forall2 (fun (o : R * R * R) y => 24 < snd (fst o) -> y = 0)
      [(20, 10, 8); (0, 30, 5)] ys.
Proof.
  assert (H : Forall (fun o : R * R * R => 0 <= fst (fst o))
                [(20, 10, 8); (0, 30, 5)])
    by (repeat constructor; simpl; lra).
  split; [exact H |].
  apply (main_ROS_rows (fun o : R * R * R => fst (fst o))
           (fun o => snd (fst o)) (fun o => snd o) [(20, 10, 8); (0, 30, 5)] H).
Defined.

(** ** The moisture function does not increase *)

Lemma decreasing_on_glue (f : R -> R) (a b c : R) :
  decreasing_on f a b -> decreasing_on f b c -> decreasing_on f a c.
Proof.
  intros H1 H2 x y Hx Hxy Hy.
  destruct (Rle_dec y b) as [Yb | Yb]; [apply H1; assumption |].
  destruct (Rle_dec b x) as [Xb | Xb]; [apply H2; assumption |].
  apply Rle_trans with (f b); [apply H2 | apply H1]; lra.
Qed.

(** The difference of the quartic at two moistures is their distance
    times a cubic form, which is positive on each unit-wide square. *)
Ltac moisture_slope_piece a :=
  let x := fresh "x" in let y := fresh "y" in
  let Hx := fresh "Hx" in let Hxy := fresh "Hxy" in let Hy := fresh "Hy" in
  intros x y Hx Hxy Hy;
  assert (0 <= -0.1206 + 0.03106 * (x + y)
               - 0.001853 * (x * x + x * y + y * y)
               + 0.00003467 * (x * x * x + x * x * y + x * y * y + y * y * y));
  [ let s := fresh "s" in let t := fresh "t" in
    set (s := x - a); set (t := y - a);
    replace x with (a + s) by (unfold s; ring);
    replace y with (a + t) by (unfold t; ring);
    assert (0 <= s <= 1) by (unfold s; lra);
    assert (0 <= t <= 1) by (unfold t; lra);
    clearbody s t;
    assert (0 <= s * s <= 1) by nra;
    assert (0 <= t * t <= 1) by nra;
    assert (0 <= s * t <= 1) by nra;
    assert (0 <= s * s * s <= 1) by nra;
    assert (0 <= t * t * t <= 1) by nra;
    assert (0 <= s * s * t <= 1) by nra;
    assert (0 <= s * t * t <= 1) by nra;
    nra
  | unfold moisture_polynomial; simpl pow; nra ].

Ltac moisture_slope_pieces lo cuts :=
  lazymatch cuts with
  | cons ?b nil => moisture_slope_piece lo
  | cons ?b ?rest =>
      apply (decreasing_on_glue _ lo b);
      [moisture_slope_piece lo | moisture_slope_pieces b rest]
  end.

Lemma moisture_polynomial_decreasing : decreasing_on moisture_polynomial 4.1 24.
Proof.
  moisture_slope_pieces 4.1
    [5; 6; 7; 8; 9; 10; 11; 12; 13; 14; 15; 16; 17; 18; 19; 20; 21; 22; 23; 24].
Qed.

Lemma moisture_effect_decreasing (m1 m2 : R) :
  m1 <= m2 -> moisture_effect m2 <= moisture_effect m1.
Proof.
  intros H.
  pose proof (moisture_effect_bounds m1) as B1.
  pose proof (moisture_effect_bounds m2) as B2.
  destruct (Rle_dec m1 4.1) as [L1 | L1].
  { unfold moisture_effect at 2. rewrite Rleb_true by assumption. lra. }
  destruct (Rlt_dec 24 m2) as [G2 | G2].
  { unfold moisture_effect at 1. rewrite Rleb_false, Rltb_true by lra. lra. }
  unfold moisture_effect. rewrite !Rleb_false, !Rltb_false by lra.
  apply moisture_polynomial_decreasing; lra.
Qed.

(** X25: The moisture effect at a fuel moisture is not larger than at a
    fuel moisture at least 0.000001 below it, over all real moistures
    (the quartic decreases on [4.1, 24] and both steps at the boundaries
    go down). *)
Theorem calc_moisture_function_decreasing (moisture1 moisture2 : R) :
  moisture1 + 0.000001 <= moisture2 ->
  exists y1 y2 : R,
    calc_moisture_function (Py (Fin moisture1)) = Ok (Np0 (Fin y1)) /\
    calc_moisture_function (Py (Fin moisture2)) = Ok (Np0 (Fin y2)) /\
    y2 <= y1.
Proof.
  intros H. rewrite !calc_moisture_function_real.
  eexists; eexists; split; [reflexivity |]; split; [reflexivity |].
  apply moisture_effect_decreasing; lra.
Qed.

Lemma calc_moisture_function_decreasing_witness :
  8 + 0.000001 <= 15 /\
  exists y1 y2 : R,
    calc_moisture_function (Py (Fin 8)) = Ok (Np0 (Fin y1)) /\
    calc_moisture_function (Py (Fin 15)) = Ok (Np0 (Fin y2)) /\
    y2 <= y1.
Proof.
  split; [lra |]. apply (calc_moisture_function_decreasing 8 15). lra.
Defined.

(** ** The mallee-heath spread probability *)

Lemma calc_spread_probability_real
  (wind_speed wind_adjustment_factor fuel_moisture fuel_load_near_surface : R) :
  calc_spread_probability
    (Py (Fin wind_speed)) (Py (Fin wind_adjustment_factor)) (Py (Fin fuel_moisture))
    (Py (Fin fuel_load_near_surface)) =
  Ok (Np0 (Fin (logistic (spread_logit wind_speed wind_adjustment_factor
                            fuel_moisture fuel_load_near_surface)))).
Proof.
  unfold calc_spread_probability. cbn.
  match goal with
  | |- context [Reqb (1 + exp (- ?g)) 0] =>
      pose proof (logistic_denominator_pos g)
  end.
  decide_tests. reflexivity.
Qed.

(** X26: calc_spread_probability returns a real in [0, 1], both bounds
    included: the logistic of 9.0787 +
    0.7150*wind_speed*wind_adjustment_factor - 2.2325*fuel_moisture +
    14.8674*fuel_load_near_surface. *)
Theorem calc_spread_probability_range
  (wind_speed wind_adjustment_factor fuel_moisture fuel_load_near_surface : R) :
  exists p : R,
    calc_spread_probability
      (Py (Fin wind_speed)) (Py (Fin wind_adjustment_factor)) (Py (Fin fuel_moisture))
      (Py (Fin fuel_load_near_surface)) = Ok (Np0 (Fin p)) /\
    p = logistic (spread_logit wind_speed wind_adjustment_factor
                    fuel_moisture fuel_load_near_surface) /\
    0 <= p <= 1.
Proof.
  rewrite calc_spread_probability_real.
  eexists; split; [reflexivity |]. split; [reflexivity |].
  pose proof (logistic_bounds (spread_logit wind_speed wind_adjustment_factor
                                 fuel_moisture fuel_load_near_surface)).
  lra.
Qed.

(** ** Finding the header row *)

Lemma lower_char_idempotent (c : Ascii.ascii) : lower_char (lower_char c) = lower_char c.
Proof. destruct c as [[] [] [] [] [] [] [] []]; reflexivity. Qed.

Lemma lower_idempotent (s : String.string) : lower (lower s) = lower s.
Proof.
  induction s as [| c s IH]; simpl; [reflexivity |].
  rewrite lower_char_idempotent, IH. reflexivity.
Qed.

Lemma prefix_append (t s : String.string) :
  String.prefix t s = true <-> exists b, s = String.append t b.
Proof.
  revert s. induction t as [| c t IH]; intros s.
  - split; [intros _; exists s; reflexivity | destruct s; reflexivity].
  - destruct s as [| d s]; simpl.
    + split; [discriminate | intros [b E]; discriminate].
    + destruct (Ascii.ascii_dec c d) as [-> | N].
      * rewrite IH. split; intros [b E]; exists b; [rewrite E; reflexivity |].
        injection E as E. exact E.
      * split; [discriminate |]. intros [b E]. injection E as E1 E2.
        congruence.
Qed.

Lemma contains_unfold (t s : String.string) :
  contains t s =
  if String.prefix t s then true
  else match s with
       | String.EmptyString => false
       | String.String _ s' => contains t s'
       end.
Proof. destruct s; reflexivity. Qed.

(** [contains] is the substring test. *)
Lemma contains_substring (t s : String.string) :
  contains t s = true <->
  exists a b, s = String.append a (String.append t b).
Proof.
  induction s as [| d s IH]; rewrite contains_unfold.
  - destruct (String.prefix t String.EmptyString) eqn:P.
    + split; [| reflexivity]. intros _.
      apply prefix_append in P. destruct P as [b E].
      exists String.EmptyString, b. exact E.
    + split; [discriminate |]. intros [a [b E]].
      destruct a; simpl in E.
      * assert (String.prefix t String.EmptyString = true)
          by (apply prefix_append; exists b; exact E).
        congruence.
      * discriminate.
  - destruct (String.prefix t (String.String d s)) eqn:P.
    + split; [| reflexivity]. intros _.
      apply prefix_append in P. destruct P as [b E].
      exists String.EmptyString, b. exact E.
    + rewrite IH. split.
      * intros [a [b E]]. exists (String.String d a), b. simpl. rewrite E. reflexivity.
      * intros [a [b E]]. destruct a as [| c a]; simpl in E.
        -- assert (String.prefix t (String.String d s) = true)
             by (apply prefix_append; exists b; exact E).
           congruence.
        -- injection E as _ E. exists a, b. exact E.
Qed.

Lemma find_header_row_from_spec (file : list String.string)
  (target_string : String.string) (start : nat) :
  match find_header_row_from start file target_string with
  | Some n =>
      exists k, n = (start + k)%nat /\ (k < length file)%nat /\
        contains (lower target_string) (lower (nth k file String.EmptyString)) = true /\
        forall j, (j < k)%nat ->
          contains (lower target_string) (lower (nth j file String.EmptyString)) = false
  | None =>
      Forall (fun line => contains (lower target_string) (lower line) = false) file
  end.
Proof.
  revert start. induction file as [| line rest IH]; intros start; simpl.
  - constructor.
  - destruct (contains (lower target_string) (lower line)) eqn:C.
    + exists 0%nat. repeat split; [lia | lia | exact C | intros j Hj; lia].
    + specialize (IH (S start)).
      destruct (find_header_row_from (S start) rest target_string) as [n |].
      * destruct IH as (k & E & Hk & Ck & Hj).
        exists (S k). repeat split; [lia | lia | exact Ck |].
        intros [| j] Hlt; [exact C | apply Hj; lia].
      * constructor; assumption.
Qed.

(** X27: When find_header_row returns a line number, that number is
    within the file, the line contains the target as a substring once
    both are lower-cased, and no earlier line does. *)
Theorem find_header_row_first_match (file : list String.string)
  (target_string : String.string) (n : nat) :
  find_header_row file target_string = Some n ->
  (n < length file)%nat /\
  (exists a b,
     lower (nth n file String.EmptyString) =
     String.append a (String.append (lower target_string) b)) /\
  forall j, (j < n)%nat ->
    ~ exists a b,
        lower (nth j file String.EmptyString) =
        String.append a (String.append (lower target_string) b).
Proof.
  intros H. unfold find_header_row in H.
  pose proof (find_header_row_from_spec file target_string 0) as S.
  rewrite H in S. destruct S as (k & E & Hk & Ck & Hj).
  simpl in E. subst k. split; [exact Hk |]. split.
  - apply contains_substring. exact Ck.
  - intros j Hlt Hex. apply contains_substring in Hex.
    rewrite (Hj j Hlt) in Hex. discriminate.
Qed.

(** X28: find_header_row returns None exactly when no line of the file
    contains the target, case ignored (in particular on an empty file). *)
Theorem find_header_row_none (file : list String.string)
  (target_string : String.string) :
  find_header_row file target_string = None <->
  Forall (fun line =>
            ~ exists a b,
                lower line = String.append a (String.append (lower target_string) b))
    file.
Proof.
  unfold find_header_row.
  pose proof (find_header_row_from_spec file target_string 0) as S.
  destruct (find_header_row_from 0 file target_string) as [n |].
  - split; [discriminate |]. intros F.
    destruct S as (k & _ & Hk & Ck & _).
    rewrite Forall_forall in F. exfalso.
    apply (F (nth k file String.EmptyString)).
    + apply nth_In. exact Hk.
    + apply contains_substring. exact Ck.
  - split; [| reflexivity]. intros _.
    eapply Forall_impl; [| exact S]. intros line C Hex.
    apply contains_substring in Hex. rewrite C in Hex. discriminate.
Qed.

Lemma find_header_row_from_lower (file : list String.string)
  (target_string : String.string) (start : nat) :
  find_header_row_from start (map lower file) (lower target_string) =
  find_header_row_from start file target_string.
Proof.
  revert start. induction file as [| line rest IH]; intros start; simpl.
  - reflexivity.
  - rewrite !lower_idempotent, IH. reflexivity.
Qed.

(** X29: find_header_row gives the same answer for two targets that
    differ only in case, and for a file whose lines are lower-cased. *)
Theorem find_header_row_ignores_case (file : list String.string)
  (target1 target2 : String.string) :
  lower target1 = lower target2 ->
  find_header_row file target1 = find_header_row file target2 /\
  find_header_row (map lower file) target1 = find_header_row file target1.
Proof.
  intros H. unfold find_header_row. split.
  - rewrite <- (find_header_row_from_lower file target1),
            <- (find_header_row_from_lower file target2), H.
    reflexivity.
  - rewrite <- (find_header_row_from_lower file target1).
    rewrite <- (find_header_row_from_lower (map lower file) target1).
    rewrite map_map.
    rewrite (map_ext (fun x => lower (lower x)) lower) by apply lower_idempotent.
    reflexivity.
Qed.

(** Concrete files. *)
Section HeaderRowExamples.
Import String.

Lemma find_header_row_first_match_witness :
  find_header_row
    ["Point forecast"; "Local Date,Local Time,Temp (C)"; "1/1/2024,09:00,25"]%string
    "date"%string = Some 1%nat /\
  (1 < List.length ["Point forecast"; "Local Date,Local Time,Temp (C)";
               "1/1/2024,09:00,25"]%string)%nat.
Proof.
  split; [reflexivity |].
  apply (find_header_row_first_match
           ["Point forecast"; "Local Date,Local Time,Temp (C)";
            "1/1/2024,09:00,25"]%string "date"%string 1).
  reflexivity.
Defined.

Lemma find_header_row_ignores_case_witness :
  lower "DATE"%string = lower "Date"%string /\
  find_header_row ["Local Date,Local Time"]%string "DATE"%string =
  find_header_row ["Local Date,Local Time"]%string "Date"%string.
Proof.
  split; [reflexivity |].
  apply (find_header_row_ignores_case ["Local Date,Local Time"]%string
           "DATE"%string "Date"%string).
  reflexivity.
Defined.

End HeaderRowExamples.
